(** * Food Delivery API: order placement, catalog and seeding

    A shallow embedding of [main.py] and [schemas.py].  Request handlers are
    computations in a state-and-exception monad over the document store;
    Python floats are IEEE binary64 values (Rocq's primitive floats), and
    Python's [round(x, 2)] is modelled on the exact value of the float. *)

Set Warnings "-inexact-float".
From Stdlib Require Import ZArith NArith Ascii String List Lia.
From Stdlib Require Import Floats.PrimFloat Floats.SpecFloat Floats.FloatOps.
From stdpp Require Import gmap strings list.

Local Open Scope string_scope.
Local Open Scope list_scope.
Local Open Scope Z_scope.

(** ** Python numerics *)

Module PyFloat.

(** [float(n)] for a Python int, as used by [price * it.quantity]: the
    nearest binary64 value, ties to even.  (Python raises OverflowError for
    an int of magnitude 2^1024 or more; no 8-byte BSON integer comes near
    that, and here the conversion saturates to infinity.) *)
Definition of_int (n : Z) : float :=
  SF2Prim (binary_normalize prec emax n 0 false).

(** The integer nearest to [num / den] ([den > 0]), ties to even. *)
Definition div_half_even (num den : Z) : Z :=
  let q := num / den in
  match Z.compare (2 * (num mod den)) den with
  | Lt => q
  | Gt => q + 1
  | Eq => if Z.even q then q else q + 1
  end.

(** Exact [x * 100] for a finite [x = m * 2^e], rounded to an integer. *)
Definition hundredths (m : positive) (e : Z) : Z :=
  if 0 <=? e then Zpos m * 2 ^ e * 100
  else div_half_even (Zpos m * 100) (2 ^ (- e)).

(** The binary64 value nearest to [n / 100] for [n >= 0]: the quotient is
    taken with 70 extra bits and a sticky bit, then rounded once. *)
Definition of_hundredths (n : Z) : float :=
  if n =? 0 then zero
  else
    let scaled := n * 2 ^ 70 in
    let sticky := if scaled mod 100 =? 0 then 0 else 1 in
    SF2Prim (binary_normalize prec emax (2 * (scaled / 100) + sticky) (-71) false).

(** [round(x, 2)]: CPython prints [x] correctly rounded to two decimals
    (half-even on the exact binary value) and reads the digits back;
    nan and the infinities are returned as they are, the sign is kept. *)
Definition round2 (x : float) : float :=
  match Prim2SF x with
  | S754_finite s m e =>
      let r := of_hundredths (hundredths m e) in
      if s then (- r)%float else r
  | _ => x
  end.

End PyFloat.

(** ** Store identifiers (bson.ObjectId) *)

(** An ObjectId is twelve bytes; it is kept as their big-endian value. *)
Definition ObjectId := N.

Definition hex_value (c : ascii) : option N :=
  let n := N_of_ascii c in
  if ((48 <=? n) && (n <=? 57))%N then Some (n - 48)%N
  else if ((97 <=? n) && (n <=? 102))%N then Some (n - 87)%N
  else if ((65 <=? n) && (n <=? 70))%N then Some (n - 55)%N
  else None.

Fixpoint fromhex (s : string) (acc : N) : option N :=
  match s with
  | EmptyString => Some acc
  | String c s' =>
      match hex_value c with
      | Some d => fromhex s' (16 * acc + d)%N
      | None => None
      end
  end.

(** [ObjectId(id_str)] for a str: 24 characters, all hexadecimal digits. *)
Definition ObjectId_of_str (id_str : string) : option ObjectId :=
  if Nat.eqb (String.length id_str) 24 then fromhex id_str 0%N else None.

Definition hex_digit (d : N) : ascii :=
  ascii_of_N (if (d <? 10)%N then 48 + d else 87 + d)%N.

Fixpoint hexlify (digits : nat) (n : N) (acc : string) : string :=
  match digits with
  | O => acc
  | S k => hexlify k (n / 16)%N (String (hex_digit (n mod 16)%N) acc)
  end.

(** [str(_id)]: 24 lower-case hexadecimal digits. *)
Definition str_ObjectId (o : ObjectId) : string := hexlify 24 o "".

(** ** Exceptions and results *)

Inductive exn :=
| HTTPException (status_code : Z) (detail : string)
| ValidationError (field : string)
| AttributeError (msg : string).

Inductive result (A : Type) :=
| Ok (a : A)
| Raise (e : exn).
Arguments Ok {A} a.
Arguments Raise {A} e.


(** The status code a raised exception surfaces as. *)
Definition http_status (e : exn) : Z :=
  match e with
  | HTTPException code _ => code
  | ValidationError _ => 422
  | AttributeError _ => 500
  end.

Fixpoint traverse {A B} (f : A -> result B) (l : list A) : result (list B) :=
  match l with
  | [] => Ok []
  | x :: l' =>
      match f x with
      | Raise e => Raise e
      | Ok y =>
          match traverse f l' with
          | Raise e => Raise e
          | Ok ys => Ok (y :: ys)
          end
      end
  end.

(** ** Schemas (schemas.py) *)

Module Restaurant.
Record t := Build {
  name : string;
  description : option string;
  cuisine : list string;
  rating : float;
  delivery_time_mins : Z;
  image_url : option string;
  location : option string }.

(** Construction validates: rating ge=0, le=5; delivery_time_mins ge=5,
    le=120. *)
Definition validate (x : t) : result t :=
  if negb (0 <=? rating x)%float then Raise (ValidationError "rating")
  else if negb (rating x <=? 5)%float then Raise (ValidationError "rating")
  else if negb (5 <=? delivery_time_mins x) then Raise (ValidationError "delivery_time_mins")
  else if negb (delivery_time_mins x <=? 120) then Raise (ValidationError "delivery_time_mins")
  else Ok x.
End Restaurant.

Module MenuItem.
Record t := Build {
  restaurant_id : string;
  name : string;
  description : option string;
  price : float;
  veg : bool;
  spicy : bool;
  image_url : option string;
  category : option string }.

(** Construction validates: price ge=0. *)
Definition validate (x : t) : result t :=
  if negb (0 <=? price x)%float then Raise (ValidationError "price")
  else Ok x.
End MenuItem.

Module OrderItem.
Record t := Build {
  item_id : string;
  name : string;
  price : float;
  quantity : Z }.

(** quantity: ge=1; price carries no bound. *)
Definition new item_id name (price : float) quantity : result t :=
  if negb (1 <=? quantity) then Raise (ValidationError "quantity")
  else Ok (Build item_id name price quantity).
End OrderItem.

Module Order.
Record t := Build {
  restaurant_id : string;
  restaurant_name : string;
  customer_name : string;
  customer_phone : string;
  customer_address : string;
  items : list OrderItem.t;
  total : float;
  status : string }.
End Order.

(** The request body of POST /orders (main.py). *)
Module CreateOrder.
Record t := Build {
  restaurant_id : string;
  customer_name : string;
  customer_phone : string;
  customer_address : string;
  items : list OrderItem.t }.
End CreateOrder.

(** ** The document store *)

(** Stored documents.  The store is schema-free: the handlers read [name]
    and [price] with [.get(key, default)], so these keys may be absent. *)
Module RestaurantDoc.
Record t := Build {
  _id : ObjectId;
  name : option string;
  description : option string;
  cuisine : list string;
  rating : float;
  delivery_time_mins : Z;
  image_url : option string;
  location : option string }.
End RestaurantDoc.

Module MenuItemDoc.
Record t := Build {
  _id : ObjectId;
  restaurant_id : string;
  name : option string;
  price : option float;
  description : option string;
  veg : bool;
  spicy : bool;
  image_url : option string;
  category : option string }.
End MenuItemDoc.

Module OrderDoc.
Record t := Build {
  _id : ObjectId;
  fields : Order.t }.
End OrderDoc.

(** The three collections, each in insertion order, and the counter the
    next identifier is drawn from. *)
Record Store := {
  db_restaurant : list RestaurantDoc.t;
  db_menuitem : list MenuItemDoc.t;
  db_order : list OrderDoc.t;
  next_id : N }.

Definition empty_store : Store :=
  {| db_restaurant := []; db_menuitem := []; db_order := []; next_id := 0 |}.

(** A named collection: where its documents live and how a validated model
    is dumped into a document. *)
Record Collection (T D : Type) := {
  docs : Store -> list D;
  set_docs : list D -> Store -> Store;
  dump : ObjectId -> T -> D }.
Arguments docs {T D} _ _.
Arguments set_docs {T D} _ _ _.
Arguments dump {T D} _ _ _.

Definition restaurant : Collection Restaurant.t RestaurantDoc.t := {|
  docs := db_restaurant;
  set_docs l s := {| db_restaurant := l; db_menuitem := db_menuitem s;
                     db_order := db_order s; next_id := next_id s |};
  dump i r := RestaurantDoc.Build i (Some (Restaurant.name r))
                (Restaurant.description r) (Restaurant.cuisine r)
                (Restaurant.rating r) (Restaurant.delivery_time_mins r)
                (Restaurant.image_url r) (Restaurant.location r) |}.

Definition menuitem : Collection MenuItem.t MenuItemDoc.t := {|
  docs := db_menuitem;
  set_docs l s := {| db_restaurant := db_restaurant s; db_menuitem := l;
                     db_order := db_order s; next_id := next_id s |};
  dump i m := MenuItemDoc.Build i (MenuItem.restaurant_id m)
                (Some (MenuItem.name m)) (Some (MenuItem.price m))
                (MenuItem.description m) (MenuItem.veg m) (MenuItem.spicy m)
                (MenuItem.image_url m) (MenuItem.category m) |}.

Definition order : Collection Order.t OrderDoc.t := {|
  docs := db_order;
  set_docs l s := {| db_restaurant := db_restaurant s; db_menuitem := db_menuitem s;
                     db_order := l; next_id := next_id s |};
  dump i o := OrderDoc.Build i o |}.

(** ** Handlers as store computations *)

(** A handler runs on the store and either returns or raises; what it wrote
    before raising stays written. *)
Definition M (A : Type) : Type := Store -> Store * result A.

Definition ret {A} (a : A) : M A := fun s => (s, Ok a).
Definition raise {A} (e : exn) : M A := fun s => (s, Raise e).
Definition bind {A B} (c : M A) (k : A -> M B) : M B :=
  fun s =>
    match c s with
    | (s', Ok a) => k a s'
    | (s', Raise e) => (s', Raise e)
    end.
Definition construct {A} (r : result A) : M A := fun s => (s, r).

Notation "x <- c ;; k" := (bind c (fun x => k))
  (at level 100, c at next level, right associativity).

(** pymongo reads on [db[collection]]. *)
Definition find {T D} (c : Collection T D) (flt : D -> bool) : M (list D) :=
  fun s => (s, Ok (List.filter flt (docs c s))).
Definition find_one {T D} (c : Collection T D) (flt : D -> bool) : M (option D) :=
  fun s => (s, Ok (List.find flt (docs c s))).
Definition count_documents {T D} (c : Collection T D) : M Z :=
  fun s => (s, Ok (Z.of_nat (length (docs c s)))).

(** Modelled from the spec: [create_document] of the repository's database
    module, which is not among the sources.  It persists the record into the
    named collection and returns a newly assigned identifier in string form. *)
Definition create_document {T D} (c : Collection T D) (data : T) : M string :=
  fun s =>
    let i := next_id s in
    let s1 := set_docs c (docs c s ++ [dump c i data]) s in
    ({| db_restaurant := db_restaurant s1; db_menuitem := db_menuitem s1;
        db_order := db_order s1; next_id := N.succ i |},
     Ok (str_ObjectId i)).

(** Modelled from the spec: [get_documents] of the repository's database
    module, which is not among the sources.  It returns up to [limit]
    matching records in store order. *)
Definition get_documents {T D} (c : Collection T D) (flt : D -> bool) (limit : Z)
  : M (list D) :=
  fun s => (s, Ok (firstn (Z.to_nat limit) (List.filter flt (docs c s)))).

(** ** main.py *)

Definition oid (id_str : string) : M ObjectId :=
  match ObjectId_of_str id_str with
  | Some o => ret o
  | None => raise (HTTPException 400 "Invalid id")
  end.

(** POST /restaurants *)
Definition create_restaurant (payload : Restaurant.t) : M string :=
  _id <- create_document restaurant payload ;;
  ret _id.

(** POST /menu *)
Definition create_menu_item (payload : MenuItem.t) : M string :=
  i <- oid (MenuItem.restaurant_id payload) ;;
  rest <- find_one restaurant (fun d => N.eqb (RestaurantDoc._id d) i) ;;
  match rest with
  | None => raise (HTTPException 404 "Restaurant not found")
  | Some _ =>
      _id <- create_document menuitem payload ;;
      ret _id
  end.

(** A listed document: [d["id"] = str(d.pop("_id"))]. *)
Definition with_id {D} (get_id : D -> ObjectId) (d : D) : string * D :=
  (str_ObjectId (get_id d), d).

(** GET /menu/{restaurant_id} *)
Definition list_menu (restaurant_id : string) : M (list (string * MenuItemDoc.t)) :=
  ds <- get_documents menuitem
          (fun d => String.eqb (MenuItemDoc.restaurant_id d) restaurant_id) 200 ;;
  ret (map (with_id MenuItemDoc._id) ds).

(** The dict comprehension [{str(m["_id"]): m for m in ...}]: a later
    document with the same key replaces an earlier one. *)
Definition menu_dict (ms : list MenuItemDoc.t) : gmap string MenuItemDoc.t :=
  fold_left (fun acc m => <[str_ObjectId (MenuItemDoc._id m) := m]> acc) ms ∅.

(** One entry of [order_items], before it is validated as an OrderItem. *)
Record line := {
  line_item_id : string;
  line_name : string;
  line_price : float;
  line_quantity : Z }.

(** The body of the loop over [payload.items]. *)
Definition order_step (menu_items : gmap string MenuItemDoc.t)
    (acc : list line * float) (it : OrderItem.t) : list line * float :=
  let '(order_items, total) := acc in
  let '(price, name) :=
    match menu_items !! OrderItem.item_id it with
    | Some m =>
        (default (OrderItem.price it) (MenuItemDoc.price m),
         default (OrderItem.name it) (MenuItemDoc.name m))
    | None => (OrderItem.price it, OrderItem.name it)
    end in
  (order_items ++ [{| line_item_id := OrderItem.item_id it; line_name := name;
                      line_price := price; line_quantity := OrderItem.quantity it |}],
   (total + price * PyFloat.of_int (OrderItem.quantity it))%float).

Record OrderPlaced := {
  placed_id : string;
  placed_total : float;
  placed_status : string }.

(** POST /orders *)
Definition place_order (payload : CreateOrder.t) : M OrderPlaced :=
  ms <- find menuitem
          (fun d => String.eqb (MenuItemDoc.restaurant_id d)
                               (CreateOrder.restaurant_id payload)) ;;
  let menu_items := menu_dict ms in
  let '(order_items, total) :=
    fold_left (order_step menu_items) (CreateOrder.items payload) ([], 0%float) in
  i <- oid (CreateOrder.restaurant_id payload) ;;
  rest <- find_one restaurant (fun d => N.eqb (RestaurantDoc._id d) i) ;;
  restaurant_name <-
    match rest with
    | Some r => ret (default "Restaurant" (RestaurantDoc.name r))
    | None => raise (AttributeError "'NoneType' object has no attribute 'get'")
    end ;;
  items <- construct
             (traverse (fun oi => OrderItem.new (line_item_id oi) (line_name oi)
                                    (line_price oi) (line_quantity oi))
                       order_items) ;;
  let order_doc :=
    Order.Build (CreateOrder.restaurant_id payload) restaurant_name
      (CreateOrder.customer_name payload) (CreateOrder.customer_phone payload)
      (CreateOrder.customer_address payload) items (PyFloat.round2 total) "placed" in
  _id <- create_document order order_doc ;;
  ret {| placed_id := _id; placed_total := Order.total order_doc;
         placed_status := "placed" |}.

(** GET /orders; [limit] is a query parameter, 50 when the request has none. *)
Definition list_orders (limit : option Z) : M (list (string * OrderDoc.t)) :=
  ds <- get_documents order (fun _ => true) (default 50 limit) ;;
  ret (map (with_id OrderDoc._id) ds).

(** A [for] loop whose body writes to the store. *)
Fixpoint for_each {A B} (l : list A) (body : A -> M B) : M unit :=
  match l with
  | [] => ret tt
  | x :: l' => _ <- body x ;; for_each l' body
  end.

Inductive SeedResponse :=
| AlreadySeeded (message : string)
| Seeded (restaurants : Z) (items : Z).

Definition demo_rest1 : Restaurant.t :=
  Restaurant.Build "Burger Hub" (Some "Juicy burgers and fries")
    ["American"; "Fast Food"] 4.3%float 25
    (Some "https://images.unsplash.com/photo-1550547660-d9450f859349?w=1200&q=60")
    (Some "Downtown").

Definition demo_rest2 : Restaurant.t :=
  Restaurant.Build "Curry Palace" (Some "Authentic Indian cuisine")
    ["Indian"; "Curry"] 4.6%float 35
    (Some "https://images.unsplash.com/photo-1604908176997-4312f5b2d3c6?w=1200&q=60")
    (Some "Midtown").

Definition demo_items (r1_id r2_id : string) : list MenuItem.t :=
  [ MenuItem.Build r1_id "Classic Burger" (Some "Beef patty, cheese, lettuce") 8.99%float
      false false
      (Some "https://images.unsplash.com/photo-1550317138-10000687a72b?w=1200&q=60")
      (Some "Burgers");
    MenuItem.Build r1_id "Veggie Burger" (Some "Grilled veggie patty") 7.49%float
      true false
      (Some "https://images.unsplash.com/photo-1606756790138-2614cf5f327f?w=1200&q=60")
      (Some "Burgers");
    MenuItem.Build r1_id "Fries" (Some "Crispy golden fries") 3.49%float
      true false
      (Some "https://images.unsplash.com/photo-1540189549336-e6e99c3679fe?w=1200&q=60")
      (Some "Sides");
    MenuItem.Build r2_id "Butter Chicken" (Some "Creamy tomato gravy") 12.99%float
      false false
      (Some "https://images.unsplash.com/photo-1628294895950-980525a64300?w=1200&q=60")
      (Some "Main");
    MenuItem.Build r2_id "Paneer Tikka" (Some "Marinated cottage cheese") 10.99%float
      true true
      (Some "https://images.unsplash.com/photo-1625944528406-500fd2ecd2ed?w=1200&q=60")
      (Some "Starter");
    MenuItem.Build r2_id "Garlic Naan" (Some "Soft and buttery") 2.49%float
      true false
      (Some "https://images.unsplash.com/photo-1625944527995-7e2e0adf33c5?w=1200&q=60")
      (Some "Bread") ].

(** POST /seed *)
Definition seed_demo : M SeedResponse :=
  n <- count_documents restaurant ;;
  if 0 <? n then ret (AlreadySeeded "Data already seeded")
  else
    rest1 <- construct (Restaurant.validate demo_rest1) ;;
    rest2 <- construct (Restaurant.validate demo_rest2) ;;
    r1_id <- create_document restaurant rest1 ;;
    r2_id <- create_document restaurant rest2 ;;
    items <- construct (traverse MenuItem.validate (demo_items r1_id r2_id)) ;;
    _ <- for_each items (create_document menuitem) ;;
    ret (Seeded 2 (Z.of_nat (length items))).

(** ** Running a handler *)

Definition run {A} (c : M A) (s : Store) : Store * result A := c s.
Definition store_after {A} (c : M A) (s : Store) : Store := fst (c s).
Definition outcome {A} (c : M A) (s : Store) : result A := snd (c s).

(** ** What the spec says about an order, in its own words *)

(** The menu [place_order] loads for a restaurant id. *)
Definition loaded_menu (s : Store) (restaurant_id : string)
  : gmap string MenuItemDoc.t :=
  menu_dict (List.filter
               (fun d => String.eqb (MenuItemDoc.restaurant_id d) restaurant_id)
               (db_menuitem s)).

(** The restaurant document an id string resolves to, if any. *)
Definition resolve_restaurant (s : Store) (restaurant_id : string)
  : option RestaurantDoc.t :=
  match ObjectId_of_str restaurant_id with
  | Some i => List.find (fun d => N.eqb (RestaurantDoc._id d) i) (db_restaurant s)
  | None => None
  end.

(** Price and name of a line: the stored entry's when the item id matches
    the menu and the stored record has the field, the client's otherwise. *)
Definition authoritative_price (menu : gmap string MenuItemDoc.t)
    (it : OrderItem.t) : float :=
  match menu !! OrderItem.item_id it with
  | Some m =>
      match MenuItemDoc.price m with
      | Some p => p
      | None => OrderItem.price it
      end
  | None => OrderItem.price it
  end.

Definition authoritative_name (menu : gmap string MenuItemDoc.t)
    (it : OrderItem.t) : string :=
  match menu !! OrderItem.item_id it with
  | Some m =>
      match MenuItemDoc.name m with
      | Some n => n
      | None => OrderItem.name it
      end
  | None => OrderItem.name it
  end.

Definition reconciled (menu : gmap string MenuItemDoc.t) (it : OrderItem.t)
  : OrderItem.t :=
  OrderItem.Build (OrderItem.item_id it) (authoritative_name menu it)
    (authoritative_price menu it) (OrderItem.quantity it).

(** The running total: price times quantity, added line after line from 0.0. *)
Definition running_total (menu : gmap string MenuItemDoc.t)
    (items : list OrderItem.t) : float :=
  fold_left
    (fun total it =>
       (total + authoritative_price menu it * PyFloat.of_int (OrderItem.quantity it))%float)
    items 0%float.

(** The order record the spec describes for a submission. *)
Definition expected_order (s : Store) (payload : CreateOrder.t)
    (restaurant_name : string) : Order.t :=
  let menu := loaded_menu s (CreateOrder.restaurant_id payload) in
  Order.Build (CreateOrder.restaurant_id payload) restaurant_name
    (CreateOrder.customer_name payload) (CreateOrder.customer_phone payload)
    (CreateOrder.customer_address payload)
    (map (reconciled menu) (CreateOrder.items payload))
    (PyFloat.round2 (running_total menu (CreateOrder.items payload)))
    "placed".

(** ** Stores and results the statements refer to *)

(** The store after one more order document. *)
Definition with_order (s : Store) (o : Order.t) : Store :=
  {| db_restaurant := db_restaurant s; db_menuitem := db_menuitem s;
     db_order := db_order s ++ [OrderDoc.Build (next_id s) o];
     next_id := N.succ (next_id s) |}.

(** The store after one more restaurant, or one more menu item. *)
Definition with_restaurant (s : Store) (r : Restaurant.t) : Store :=
  {| db_restaurant := db_restaurant s ++ [dump restaurant (next_id s) r];
     db_menuitem := db_menuitem s; db_order := db_order s;
     next_id := N.succ (next_id s) |}.

Definition with_menu_item (s : Store) (m : MenuItem.t) : Store :=
  {| db_restaurant := db_restaurant s;
     db_menuitem := db_menuitem s ++ [dump menuitem (next_id s) m];
     db_order := db_order s;
     next_id := N.succ (next_id s) |}.

(** The store after a first seeding. *)
Definition seeded (s : Store) : Store :=
  let s1 := with_restaurant s demo_rest1 in
  let s2 := with_restaurant s1 demo_rest2 in
  fold_left with_menu_item
    (demo_items (str_ObjectId (next_id s)) (str_ObjectId (next_id s1))) s2.

Definition placed (s : Store) (o : Order.t) : OrderPlaced :=
  {| placed_id := str_ObjectId (next_id s); placed_total := Order.total o;
     placed_status := "placed" |}.

Definition line_of (oi : OrderItem.t) : line :=
  {| line_item_id := OrderItem.item_id oi; line_name := OrderItem.name oi;
     line_price := OrderItem.price oi; line_quantity := OrderItem.quantity oi |}.

Definition new_lines (menu : gmap string MenuItemDoc.t) (items : list OrderItem.t)
  : result (list OrderItem.t) :=
  traverse (fun oi => OrderItem.new (line_item_id oi) (line_name oi)
                        (line_price oi) (line_quantity oi))
           (map (fun it => line_of (reconciled menu it)) items).

Definition for_restaurant (restaurant_id : string) (d : MenuItemDoc.t) : bool :=
  String.eqb (MenuItemDoc.restaurant_id d) restaurant_id.

(** The records a listing returned; none when the handler raised. *)
Definition returned {A} (r : result (list A)) : list A :=
  match r with
  | Ok l => l
  | Raise _ => []
  end.

(** ** Demo data used by the examples *)

Definition seeded_store : Store := store_after seed_demo empty_store.

Definition burger_hub_id : string := "000000000000000000000000".
Definition classic_burger_id : string := "000000000000000000000002".

Definition unknown_restaurant_id : string := "507f1f77bcf86cd799439011".

Definition submission (restaurant_id : string) (items : list OrderItem.t)
  : CreateOrder.t :=
  CreateOrder.Build restaurant_id "Ann" "555-0100" "1 Main St" items.

Definition scenarioA : CreateOrder.t :=
  submission burger_hub_id [OrderItem.Build classic_burger_id "Classic Burger" 0.01%float 2].

Definition scenarioB : CreateOrder.t :=
  submission burger_hub_id
    [OrderItem.Build "ffffffffffffffffffffffff" "Mystery Item" 5%float 1].

Definition three_thirds : CreateOrder.t :=
  submission burger_hub_id
    [OrderItem.Build "a00000000000000000000001" "Third" 3.333%float 1;
     OrderItem.Build "a00000000000000000000002" "Third" 3.333%float 1;
     OrderItem.Build "a00000000000000000000003" "Third" 3.333%float 1].

Definition refund_order : CreateOrder.t :=
  submission burger_hub_id
    [OrderItem.Build "ffffffffffffffffffffffff" "Refund" (-5)%float 1].

Definition empty_cart : CreateOrder.t := submission burger_hub_id [].

(** A store whose one menu document for the restaurant has no price, and
    one whose menu document has no name. *)
Definition legacy_restaurant : RestaurantDoc.t :=
  RestaurantDoc.Build 0%N (Some "Burger Hub") None [] 4%float 30 None None.

Definition legacy_store : Store :=
  {| db_restaurant := [legacy_restaurant];
     db_menuitem :=
       [MenuItemDoc.Build 1%N burger_hub_id (Some "Classic Burger") None
          None false false None None;
        MenuItemDoc.Build 2%N burger_hub_id None (Some 7.49%float)
          None true false None None];
     db_order := [];
     next_id := 3 |}.

Definition legacy_order : CreateOrder.t :=
  submission burger_hub_id
    [OrderItem.Build "000000000000000000000001" "Burger (client)" 4.5%float 1;
     OrderItem.Build "000000000000000000000002" "Veggie (client)" 0.01%float 3].

(** Fifty-one orders placed one after another on the seeded store. *)
Definition busy_store : Store :=
  Nat.iter 51 (store_after (place_order scenarioB)) seeded_store.

Definition extra_fries : MenuItem.t :=
  MenuItem.Build burger_hub_id "Large Fries" None 4.49%float true false None None.



(** ** Listing restaurants (main.py) *)

(** Python truthiness of an optional query string: [None] and the empty
    string are false. *)
Definition truthy (q : option string) : bool :=
  match q with
  | Some (String _ _) => true
  | _ => false
  end.

(** The two conditions [list_restaurants] may put into its filter. *)
Inductive condition :=
| NameRegex (pattern : string)
| CuisineElemMatch (pattern : string).

(** [filt = {}], then one entry per truthy query parameter. *)
Definition restaurant_conditions (q cuisine : option string) : list condition :=
  (if truthy q then [NameRegex (default "" q)] else []) ++
  (if truthy cuisine then [CuisineElemMatch (default "" cuisine)] else []).

Section ListRestaurants.

(** The store's [$regex] with option [i]: whether a pattern matches
    somewhere in a string, letter case ignored.  The engine belongs to the
    store, so it is a parameter here. *)
Variable regex_i : string -> string -> bool.

(** A document satisfies a condition on [name] only if it has a name, and
    one on [cuisine] if some element of the array matches. *)
Definition satisfies (d : RestaurantDoc.t) (c : condition) : bool :=
  match c with
  | NameRegex pattern =>
      match RestaurantDoc.name d with
      | Some n => regex_i pattern n
      | None => false
      end
  | CuisineElemMatch pattern => existsb (regex_i pattern) (RestaurantDoc.cuisine d)
  end.

(** GET /restaurants *)
Definition list_restaurants (q cuisine : option string)
  : M (list (string * RestaurantDoc.t)) :=
  let filt := restaurant_conditions q cuisine in
  ds <- get_documents restaurant (fun d => forallb (satisfies d) filt) 50 ;;
  ret (map (with_id RestaurantDoc._id) ds).

End ListRestaurants.

(** ** More statement vocabulary *)

(** The key a menu document gets in the loaded menu. *)
Definition menu_key (m : MenuItemDoc.t) : string :=
  str_ObjectId (MenuItemDoc._id m).

(** Every stored menu document has both a name and a price, as every
    document dumped from a validated [MenuItem] has. *)
Definition menu_complete (s : Store) : Prop :=
  forall d, In d (db_menuitem s) ->
            MenuItemDoc.name d <> None /\ MenuItemDoc.price d <> None.

(** The number of distinct identifiers: twelve bytes. *)
Definition ObjectId_bound : N := (16 ^ 24)%N.

(** A restaurant document without a [name] key, alone in its store. *)
Definition nameless_store : Store :=
  {| db_restaurant :=
       [RestaurantDoc.Build 0%N None None [] 4%float 30 None None];
     db_menuitem := []; db_order := []; next_id := 1 |}.

(** An item of Curry Palace's menu, and an order that asks Burger Hub for it
    at a client price. *)
Definition butter_chicken_id : string := "000000000000000000000005".

Definition foreign_item : OrderItem.t :=
  OrderItem.Build butter_chicken_id "Butter Chicken" 0.01%float 1.

Definition cross_order : CreateOrder.t := submission burger_hub_id [foreign_item].

(** A case-sensitive substring test, standing in for the store's regex
    engine in the examples. *)
Fixpoint is_prefix (p s : string) : bool :=
  match p, s with
  | EmptyString, _ => true
  | String a p', String b s' => Ascii.eqb a b && is_prefix p' s'
  | String _ _, EmptyString => false
  end.

Fixpoint contains (p s : string) : bool :=
  is_prefix p s ||
  match s with
  | EmptyString => false
  | String _ s' => contains p s'
  end.

(** * Proofs *)

(** Closes a goal between closed terms by evaluation. *)
Ltac by_evaluation := vm_compute; reflexivity.

(** ** The order loop *)

Section OrderLoop.

Variable menu : gmap string MenuItemDoc.t.

(** One turn of the loop appends the reconciled line and adds its amount. *)
Lemma order_step_eq lines total it :
  order_step menu (lines, total) it =
  (lines ++ [line_of (reconciled menu it)],
   (total + authoritative_price menu it * PyFloat.of_int (OrderItem.quantity it))%float).
Proof.
  unfold order_step, line_of, reconciled, authoritative_price, authoritative_name.
  cbn [OrderItem.item_id OrderItem.name OrderItem.price OrderItem.quantity].
  destruct (menu !! OrderItem.item_id it) as [m|]; [|reflexivity].
  destruct (MenuItemDoc.price m), (MenuItemDoc.name m); reflexivity.
Qed.

(** The whole loop: the reconciled lines in submission order, and the
    amounts added from left to right. *)
Lemma order_loop_eq items : forall lines total,
  fold_left (order_step menu) items (lines, total) =
  (lines ++ map (fun it => line_of (reconciled menu it)) items,
   fold_left
     (fun t it =>
        (t + authoritative_price menu it * PyFloat.of_int (OrderItem.quantity it))%float)
     items total).
Proof.
  induction items as [|it items IH]; intros lines total; cbn [fold_left map].
  - now rewrite app_nil_r.
  - rewrite order_step_eq, IH, <- app_assoc. reflexivity.
Qed.

End OrderLoop.

(** Validation of the prepared lines: it succeeds exactly when every
    quantity is at least 1, and then keeps every line as it is. *)
Lemma traverse_new_ok (its : list OrderItem.t) :
  Forall (fun it => 1 <= OrderItem.quantity it) its ->
  traverse (fun oi => OrderItem.new (line_item_id oi) (line_name oi)
                        (line_price oi) (line_quantity oi))
           (map line_of its) = Ok its.
Proof.
  induction 1 as [|it its Hq _ IH]; cbn [map traverse]; [reflexivity|].
  unfold OrderItem.new at 1. cbn [line_of line_item_id line_name line_price line_quantity].
  destruct (Z.leb_spec 1 (OrderItem.quantity it)) as [_|Hlt]; [|lia].
  cbn [negb]. rewrite IH. now destruct it.
Qed.

Lemma traverse_new_inv (ls : list line) (its : list OrderItem.t) :
  traverse (fun oi => OrderItem.new (line_item_id oi) (line_name oi)
                        (line_price oi) (line_quantity oi)) ls = Ok its ->
  ls = map line_of its /\ Forall (fun it => 1 <= OrderItem.quantity it) its.
Proof.
  revert its. induction ls as [|l ls IH]; intros its; cbn [traverse].
  - intros [= <-]. split; [reflexivity | constructor].
  - unfold OrderItem.new at 1.
    destruct (Z.leb_spec 1 (line_quantity l)) as [Hq|_]; cbn [negb]; [|discriminate].
    destruct (traverse _ ls) as [its'|e]; [|discriminate].
    intros [= <-]. destruct (IH its' eq_refl) as [-> HF]. split.
    + now destruct l.
    + constructor; [exact Hq | exact HF].
Qed.

(** ** What [place_order] does to the store *)

Lemma place_order_run s p :
  run (place_order p) s =
  let menu := loaded_menu s (CreateOrder.restaurant_id p) in
  match ObjectId_of_str (CreateOrder.restaurant_id p) with
  | None => (s, Raise (HTTPException 400 "Invalid id"))
  | Some i =>
      match List.find (fun d => N.eqb (RestaurantDoc._id d) i) (db_restaurant s) with
      | None => (s, Raise (AttributeError "'NoneType' object has no attribute 'get'"))
      | Some r =>
          match new_lines menu (CreateOrder.items p) with
          | Raise e => (s, Raise e)
          | Ok its =>
              let o :=
                Order.Build (CreateOrder.restaurant_id p)
                  (default "Restaurant" (RestaurantDoc.name r))
                  (CreateOrder.customer_name p) (CreateOrder.customer_phone p)
                  (CreateOrder.customer_address p) its
                  (PyFloat.round2 (running_total menu (CreateOrder.items p)))
                  "placed" in
              (with_order s o, Ok (placed s o))
          end
      end
  end.
Proof.
  unfold run, place_order, bind at 1, find, loaded_menu, new_lines, running_total.
  cbn [docs menuitem].
  rewrite order_loop_eq. cbn [app].
  unfold oid, bind at 1.
  destruct (ObjectId_of_str (CreateOrder.restaurant_id p)) as [i|]; [|reflexivity].
  unfold ret at 1, bind at 1, find_one. cbn [docs restaurant].
  destruct (List.find _ (db_restaurant s)) as [r|]; [|reflexivity].
  unfold bind at 1, ret at 1, bind at 1, construct.
  destruct (traverse _ _) as [its|e]; reflexivity.
Qed.

Lemma reconciled_quantities menu items :
  Forall (fun it => 1 <= OrderItem.quantity it) items ->
  Forall (fun it => 1 <= OrderItem.quantity it) (map (reconciled menu) items).
Proof. induction 1; cbn [map]; constructor; assumption. Qed.

Lemma new_lines_ok menu items :
  Forall (fun it => 1 <= OrderItem.quantity it) items ->
  new_lines menu items = Ok (map (reconciled menu) items).
Proof.
  intros HF. unfold new_lines.
  rewrite <- (map_map (reconciled menu) line_of).
  apply traverse_new_ok, reconciled_quantities, HF.
Qed.

Lemma new_lines_inv menu items its :
  new_lines menu items = Ok its ->
  its = map (reconciled menu) items /\
  Forall (fun it => 1 <= OrderItem.quantity it) items.
Proof.
  unfold new_lines. intros H. apply traverse_new_inv in H as [Hmap HF].
  rewrite <- (map_map (reconciled menu) line_of) in Hmap.
  assert (Heq : map (reconciled menu) items = its).
  { revert Hmap. generalize (map (reconciled menu) items) as l.
    clear HF. induction its as [|a its IH]; intros [|b l]; cbn [map];
      try discriminate; [reflexivity|].
    intros Hcons. inversion Hcons as [[Hid Hname Hprice Hqty Hrest]].
    f_equal; [destruct a, b; cbn in *; congruence | now apply IH]. }
  subst its. split; [reflexivity|].
  clear Hmap. induction items as [|it items IH]; [constructor|].
  cbn [map] in HF. inversion HF as [|? ? Hq HF']; subst.
  constructor; [exact Hq | exact (IH HF')].
Qed.

(** Success: the restaurant resolves and every quantity is at least 1. *)
Lemma place_order_ok s p r :
  resolve_restaurant s (CreateOrder.restaurant_id p) = Some r ->
  Forall (fun it => 1 <= OrderItem.quantity it) (CreateOrder.items p) ->
  let o := expected_order s p (default "Restaurant" (RestaurantDoc.name r)) in
  run (place_order p) s = (with_order s o, Ok (placed s o)).
Proof.
  unfold resolve_restaurant. intros Hres HF. rewrite place_order_run. cbv zeta.
  destruct (ObjectId_of_str (CreateOrder.restaurant_id p)) as [i|]; [|discriminate].
  rewrite Hres, (new_lines_ok _ _ HF). reflexivity.
Qed.

(** Every successful run is of that form. *)
Lemma place_order_inv s p s' resp :
  run (place_order p) s = (s', Ok resp) ->
  exists r,
    resolve_restaurant s (CreateOrder.restaurant_id p) = Some r /\
    Forall (fun it => 1 <= OrderItem.quantity it) (CreateOrder.items p) /\
    let o := expected_order s p (default "Restaurant" (RestaurantDoc.name r)) in
    s' = with_order s o /\ resp = placed s o.
Proof.
  rewrite place_order_run. cbv zeta. unfold resolve_restaurant.
  destruct (ObjectId_of_str (CreateOrder.restaurant_id p)) as [i|]; [|discriminate].
  destruct (List.find _ (db_restaurant s)) as [r|]; [|discriminate].
  destruct (new_lines _ _) as [its|e] eqn:Hl; [|discriminate].
  apply new_lines_inv in Hl as [-> HF].
  intros [= <- <-]. exists r. repeat split; assumption.
Qed.

Lemma lookup_map {A B} (f : A -> B) (l : list A) (k : nat) :
  map f l !! k = option_map f (l !! k).
Proof.
  revert k. induction l as [|a l IH]; intros [|k]; cbn; try reflexivity. apply IH.
Qed.

(** ** Order placement: the claims *)

(** C1 (the code departs from the claim).  When [restaurant_id] is a
    well-formed identifier that resolves to no stored restaurant,
    [find_one] yields [None], the [or {}] sits inside the call and guards
    nothing, and [.get] on [None] raises AttributeError: the request ends in
    a server error, the store is left as it was, no order is created and no
    ["Restaurant"] placeholder is written. *)
Theorem place_order_unresolved_restaurant_raises (s : Store) (p : CreateOrder.t) (i : ObjectId) :
  ObjectId_of_str (CreateOrder.restaurant_id p) = Some i ->
  resolve_restaurant s (CreateOrder.restaurant_id p) = None ->
  run (place_order p) s =
    (s, Raise (AttributeError "'NoneType' object has no attribute 'get'")) /\
  http_status (AttributeError "'NoneType' object has no attribute 'get'") = 500.
Proof.
  unfold resolve_restaurant. intros Hid Hres. rewrite Hid in Hres.
  rewrite place_order_run. cbv zeta. rewrite Hid, Hres. split; reflexivity.
Qed.

Lemma place_order_unresolved_restaurant_raises_witness :
  ObjectId_of_str (CreateOrder.restaurant_id
                     (submission unknown_restaurant_id (CreateOrder.items scenarioB)))
    = Some 24912482966938930280208240657%N /\
  resolve_restaurant seeded_store unknown_restaurant_id = None /\
  run (place_order (submission unknown_restaurant_id (CreateOrder.items scenarioB)))
      seeded_store =
    (seeded_store, Raise (AttributeError "'NoneType' object has no attribute 'get'")).
Proof.
  split; [by_evaluation|]. split; [by_evaluation|].
  apply (place_order_unresolved_restaurant_raises seeded_store
           (submission unknown_restaurant_id (CreateOrder.items scenarioB))
           24912482966938930280208240657%N); by_evaluation.
Defined.



(** The two worked totals of the spec: the server price wins (17.98, not
    0.02), and 3 x 3.333 is rounded once, to 10.0; rounding each line first
    would have given 9.99. *)
Example scenarioA_total :
  outcome (place_order scenarioA) seeded_store =
    Ok {| placed_id := "000000000000000000000008"; placed_total := 17.98%float;
          placed_status := "placed" |}.
Proof. by_evaluation. Qed.

Example three_thirds_total :
  outcome (place_order three_thirds) seeded_store =
    Ok {| placed_id := "000000000000000000000008"; placed_total := 10%float;
          placed_status := "placed" |} /\
  (PyFloat.round2 3.333 + PyFloat.round2 3.333 + PyFloat.round2 3.333)%float
    = 9.99%float.
Proof. split; by_evaluation. Qed.

(** C3.  Whenever [place_order] returns, the stored order has one item per
    submitted line, in submission order; each keeps the submitted item id
    and quantity; a line whose item id is in the loaded menu takes the
    stored entry's name and price, any other line keeps the client's. *)
Theorem place_order_items (s s' : Store) (p : CreateOrder.t) (resp : OrderPlaced) :
  run (place_order p) s = (s', Ok resp) ->
  exists o,
    db_order s' = db_order s ++ [o] /\
    length (Order.items (OrderDoc.fields o)) = length (CreateOrder.items p) /\
    forall (k : nat) (it : OrderItem.t),
      CreateOrder.items p !! k = Some it ->
      exists oi,
        Order.items (OrderDoc.fields o) !! k = Some oi /\
        OrderItem.item_id oi = OrderItem.item_id it /\
        OrderItem.quantity oi = OrderItem.quantity it /\
        match loaded_menu s (CreateOrder.restaurant_id p) !! OrderItem.item_id it with
        | Some m =>
            (forall n, MenuItemDoc.name m = Some n -> OrderItem.name oi = n) /\
            (forall q, MenuItemDoc.price m = Some q -> OrderItem.price oi = q)
        | None =>
            OrderItem.name oi = OrderItem.name it /\
            OrderItem.price oi = OrderItem.price it
        end.
Proof.
  intros Hrun.
  destruct (place_order_inv _ _ _ _ Hrun) as (r & _ & _ & -> & ->).
  eexists. split; [reflexivity|].
  cbn [OrderDoc.fields expected_order Order.items]. split; [apply length_map|].
  intros k it Hk. exists (reconciled (loaded_menu s (CreateOrder.restaurant_id p)) it).
  rewrite lookup_map, Hk. split; [reflexivity|].
  unfold reconciled, authoritative_name, authoritative_price.
  cbn [OrderItem.item_id OrderItem.quantity OrderItem.name OrderItem.price].
  do 2 (split; [reflexivity|]).
  destruct (loaded_menu s (CreateOrder.restaurant_id p) !! OrderItem.item_id it) as [m|].
  - split; [intros n -> | intros q ->]; reflexivity.
  - split; reflexivity.
Qed.

Lemma place_order_items_witness :
  run (place_order scenarioA) seeded_store =
    (store_after (place_order scenarioA) seeded_store,
     Ok {| placed_id := "000000000000000000000008"; placed_total := 17.98%float;
           placed_status := "placed" |}) /\
  exists o,
    db_order (store_after (place_order scenarioA) seeded_store)
      = db_order seeded_store ++ [o] /\
    length (Order.items (OrderDoc.fields o)) = length (CreateOrder.items scenarioA) /\
    forall (k : nat) (it : OrderItem.t),
      CreateOrder.items scenarioA !! k = Some it ->
      exists oi,
        Order.items (OrderDoc.fields o) !! k = Some oi /\
        OrderItem.item_id oi = OrderItem.item_id it /\
        OrderItem.quantity oi = OrderItem.quantity it /\
        match loaded_menu seeded_store (CreateOrder.restaurant_id scenarioA)
                !! OrderItem.item_id it with
        | Some m =>
            (forall n, MenuItemDoc.name m = Some n -> OrderItem.name oi = n) /\
            (forall q, MenuItemDoc.price m = Some q -> OrderItem.price oi = q)
        | None =>
            OrderItem.name oi = OrderItem.name it /\
            OrderItem.price oi = OrderItem.price it
        end.
Proof.
  split; [by_evaluation|].
  apply (place_order_items seeded_store
           (store_after (place_order scenarioA) seeded_store) scenarioA
           {| placed_id := "000000000000000000000008";
              placed_total := 17.98%float; placed_status := "placed" |}).
  by_evaluation.
Defined.

(** The stored lines of scenarios A and B: the matched line carries the
    menu's name and price, the unmatched one the client's. *)
Example scenario_lines :
  map (fun o => Order.items (OrderDoc.fields o))
      (db_order (store_after (place_order scenarioA) seeded_store)) =
    [[OrderItem.Build classic_burger_id "Classic Burger" 8.99%float 2]] /\
  map (fun o => Order.items (OrderDoc.fields o))
      (db_order (store_after (place_order scenarioB) seeded_store)) =
    [[OrderItem.Build "ffffffffffffffffffffffff" "Mystery Item" 5%float 1]].
Proof. split; by_evaluation. Qed.



(** Every stored line has passed [OrderItem]'s validation, so its quantity
    is at least 1. *)
Lemma place_order_quantities (s s' : Store) (p : CreateOrder.t) (resp : OrderPlaced) :
  run (place_order p) s = (s', Ok resp) ->
  exists o,
    db_order s' = db_order s ++ [o] /\
    Forall (fun oi => 1 <= OrderItem.quantity oi) (Order.items (OrderDoc.fields o)).
Proof.
  intros Hrun.
  destruct (place_order_inv _ _ _ _ Hrun) as (r & _ & HF & -> & ->).
  eexists. split; [reflexivity|].
  cbn [OrderDoc.fields expected_order Order.items].
  apply reconciled_quantities, HF.
Qed.

(** C5 (the code departs from the claim).  [OrderItem.price] is declared
    without the [ge=0] bound that [MenuItem.price] has, so a line whose item
    id is not on the menu is stored with the client's negative price: here
    an order of one line priced -5.0 is accepted, stored with that price,
    and totals -5.0. *)
Theorem place_order_persists_negative_price :
  outcome (place_order refund_order) seeded_store =
    Ok {| placed_id := "000000000000000000000008"; placed_total := (-5)%float;
          placed_status := "placed" |} /\
  map (fun o => Order.items (OrderDoc.fields o))
      (db_order (store_after (place_order refund_order) seeded_store)) =
    [[OrderItem.Build "ffffffffffffffffffffffff" "Refund" (-5)%float 1]] /\
  ((-5) <? 0)%float = true.
Proof. repeat split; by_evaluation. Qed.

(** C7, as stated, fails: a submission with no items for a stored restaurant
    is accepted and stored as an order whose items list is empty. *)
Lemma place_order_stores_empty_cart :
  outcome (place_order empty_cart) seeded_store =
    Ok {| placed_id := "000000000000000000000008"; placed_total := 0%float;
          placed_status := "placed" |} /\
  map (fun o => Order.items (OrderDoc.fields o))
      (db_order (store_after (place_order empty_cart) seeded_store)) = [[]].
Proof. split; by_evaluation. Qed.

(** C7, amended.  Neither [CreateOrder] nor [Order] bounds the length of
    [items]: a submission with an empty items list whose restaurant resolves
    is stored as an order with no items and total 0.0. *)
Theorem place_order_empty_items (s : Store) (p : CreateOrder.t) (r : RestaurantDoc.t) :
  CreateOrder.items p = [] ->
  resolve_restaurant s (CreateOrder.restaurant_id p) = Some r ->
  let o := Order.Build (CreateOrder.restaurant_id p)
             (default "Restaurant" (RestaurantDoc.name r))
             (CreateOrder.customer_name p) (CreateOrder.customer_phone p)
             (CreateOrder.customer_address p) [] 0%float "placed" in
  run (place_order p) s = (with_order s o, Ok (placed s o)).
Proof.
  intros Hitems Hres o.
  assert (HF : Forall (fun it => 1 <= OrderItem.quantity it) (CreateOrder.items p))
    by (rewrite Hitems; constructor).
  rewrite (place_order_ok s p r Hres HF).
  unfold expected_order, o. rewrite Hitems. reflexivity.
Qed.

Lemma place_order_empty_items_witness :
  CreateOrder.items empty_cart = [] /\
  resolve_restaurant seeded_store (CreateOrder.restaurant_id empty_cart)
    = Some (dump restaurant 0%N demo_rest1) /\
  run (place_order empty_cart) seeded_store =
    (with_order seeded_store
       (Order.Build burger_hub_id "Burger Hub" "Ann" "555-0100" "1 Main St" []
          0%float "placed"),
     Ok {| placed_id := "000000000000000000000008"; placed_total := 0%float;
           placed_status := "placed" |}).
Proof.
  split; [reflexivity|]. split; [by_evaluation|].
  apply (place_order_empty_items seeded_store empty_cart
           (dump restaurant 0%N demo_rest1));
    by_evaluation.
Defined.



(** The stored lines for [legacy_order]: the first has the menu's name and
    the client's price, the second the client's name and the menu's price. *)
Example legacy_order_lines :
  map (fun o => Order.items (OrderDoc.fields o))
      (db_order (store_after (place_order legacy_order) legacy_store)) =
    [[OrderItem.Build "000000000000000000000001" "Classic Burger" 4.5%float 1;
      OrderItem.Build "000000000000000000000002" "Veggie (client)" 7.49%float 3]] /\
  outcome (place_order legacy_order) legacy_store =
    Ok {| placed_id := "000000000000000000000003"; placed_total := 26.97%float;
          placed_status := "placed" |}.
Proof. split; by_evaluation. Qed.

(** ** Catalog *)

Lemma run_bind {A B} (c : M A) (k : A -> M B) (s : Store) :
  run (bind c k) s =
  match run c s with
  | (s', Ok a) => run (k a) s'
  | (s', Raise e) => (s', Raise e)
  end.
Proof. reflexivity. Qed.

Lemma filter_all {A} (l : list A) : List.filter (fun _ => true) l = l.
Proof. induction l as [|a l IH]; cbn; [reflexivity | now rewrite IH]. Qed.

Lemma create_menu_item_run (s : Store) (p : MenuItem.t) :
  run (create_menu_item p) s =
  match ObjectId_of_str (MenuItem.restaurant_id p) with
  | None => (s, Raise (HTTPException 400 "Invalid id"))
  | Some i =>
      match List.find (fun d => N.eqb (RestaurantDoc._id d) i) (db_restaurant s) with
      | None => (s, Raise (HTTPException 404 "Restaurant not found"))
      | Some _ => (with_menu_item s p, Ok (str_ObjectId (next_id s)))
      end
  end.
Proof.
  unfold create_menu_item. rewrite run_bind. unfold oid.
  destruct (ObjectId_of_str (MenuItem.restaurant_id p)) as [i|]; [|reflexivity].
  unfold ret at 1, run at 1. rewrite run_bind.
  unfold find_one at 1, run at 1. cbn [docs restaurant].
  destruct (List.find _ (db_restaurant s)) as [r|]; reflexivity.
Qed.

Lemma list_menu_run (s : Store) (restaurant_id : string) :
  run (list_menu restaurant_id) s =
  (s, Ok (map (with_id MenuItemDoc._id)
            (firstn 200 (List.filter (for_restaurant restaurant_id) (db_menuitem s))))).
Proof. reflexivity. Qed.

Lemma list_orders_run (s : Store) (limit : option Z) :
  run (list_orders limit) s =
  (s, Ok (map (with_id OrderDoc._id)
            (firstn (Z.to_nat (default 50 limit)) (db_order s)))).
Proof.
  unfold list_orders. rewrite run_bind. unfold get_documents at 1, run at 1.
  cbn [docs order]. rewrite filter_all. reflexivity.
Qed.

(** C6, as stated, fails: asked with [limit=51] on a store holding 51
    orders, the listing returns 51 records. *)
Lemma list_orders_over_fifty :
  exists l, outcome (list_orders (Some 51)) busy_store = Ok l /\ length l = 51%nat.
Proof.
  unfold outcome. pose proof (list_orders_run busy_store (Some 51)) as Hrun.
  unfold run in Hrun. rewrite Hrun. eexists. split; [reflexivity|].
  rewrite length_map. by_evaluation.
Qed.

(** C6, amended.  The listing never raises and returns at most [limit]
    records, where [limit] is the request's query parameter; a request
    without the parameter gets the default of 50 and so at most 50 records. *)
Theorem list_orders_limit :
  (forall (s : Store) (limit : option Z),
     exists l, run (list_orders limit) s = (s, Ok l) /\
               Z.of_nat (length l) <= Z.max 0 (default 50 limit) /\
               (length l <= length (db_order s))%nat) /\
  (forall s : Store,
     exists l, run (list_orders None) s = (s, Ok l) /\ (length l <= 50)%nat).
Proof.
  split.
  - intros s limit. rewrite list_orders_run. eexists. split; [reflexivity|].
    rewrite length_map, length_firstn. split; lia.
  - intros s. rewrite list_orders_run. eexists. split; [reflexivity|].
    rewrite length_map, length_firstn. cbn [default]. lia.
Qed.


Lemma firstn_snoc {A} (n : nat) (l : list A) (x : A) :
  (length l < n)%nat -> firstn n (l ++ [x]) = l ++ [x].
Proof. intros H. apply firstn_all2. rewrite length_app. cbn. lia. Qed.




(** ** Seeding *)

Lemma validate_demo_restaurants :
  Restaurant.validate demo_rest1 = Ok demo_rest1 /\
  Restaurant.validate demo_rest2 = Ok demo_rest2.
Proof. split; reflexivity. Qed.

Lemma validate_demo_items (r1_id r2_id : string) :
  traverse MenuItem.validate (demo_items r1_id r2_id) = Ok (demo_items r1_id r2_id).
Proof. reflexivity. Qed.

Lemma for_each_create_menuitem (items : list MenuItem.t) : forall s : Store,
  run (for_each items (create_document menuitem)) s =
  (fold_left with_menu_item items s, Ok tt).
Proof.
  induction items as [|m items IH]; intros s; cbn [for_each fold_left]; [reflexivity|].
  rewrite run_bind. change (run (create_document menuitem m) s)
    with (with_menu_item s m, Ok (str_ObjectId (next_id s))).
  apply IH.
Qed.

Lemma fold_with_menu_item (items : list MenuItem.t) : forall s : Store,
  db_restaurant (fold_left with_menu_item items s) = db_restaurant s /\
  length (db_menuitem (fold_left with_menu_item items s))
    = (length (db_menuitem s) + length items)%nat /\
  db_order (fold_left with_menu_item items s) = db_order s.
Proof.
  induction items as [|m items IH]; intros s; cbn [fold_left length].
  - repeat split. lia.
  - destruct (IH (with_menu_item s m)) as (Hr & Hm & Ho).
    rewrite Hr, Hm, Ho. cbn [with_menu_item db_restaurant db_menuitem db_order].
    rewrite length_app. cbn [length]. repeat split. lia.
Qed.

Lemma seed_demo_run (s : Store) :
  run seed_demo s =
  if 0 <? Z.of_nat (length (db_restaurant s))
  then (s, Ok (AlreadySeeded "Data already seeded"))
  else (seeded s, Ok (Seeded 2 6)).
Proof.
  unfold seed_demo. rewrite run_bind.
  unfold count_documents at 1, run at 1. cbn [docs restaurant].
  destruct (0 <? Z.of_nat (length (db_restaurant s))); [reflexivity|].
  rewrite run_bind. unfold construct at 1, run at 1.
  rewrite (proj1 validate_demo_restaurants).
  rewrite run_bind. unfold construct at 1, run at 1.
  rewrite (proj2 validate_demo_restaurants).
  rewrite run_bind.
  change (run (create_document restaurant demo_rest1) s)
    with (with_restaurant s demo_rest1, Ok (str_ObjectId (next_id s))).
  cbv beta iota. rewrite run_bind.
  change (run (create_document restaurant demo_rest2) (with_restaurant s demo_rest1))
    with (with_restaurant (with_restaurant s demo_rest1) demo_rest2,
          Ok (str_ObjectId (next_id (with_restaurant s demo_rest1)))).
  cbv beta iota. rewrite run_bind. unfold construct at 1, run at 1.
  rewrite validate_demo_items.
  rewrite run_bind, for_each_create_menuitem. reflexivity.
Qed.

(** C9.  On a store that already has a restaurant, [seed_demo] writes
    nothing and reports that the data is already there; on one that has
    none it adds exactly two restaurants and six menu items; so two calls
    from the empty store leave 2 restaurants and 6 menu items, the second
    call changing nothing. *)
Theorem seed_demo_idempotent :
  (forall s : Store, db_restaurant s <> [] ->
     run seed_demo s = (s, Ok (AlreadySeeded "Data already seeded"))) /\
  (forall s : Store, db_restaurant s = [] ->
     exists s',
       run seed_demo s = (s', Ok (Seeded 2 6)) /\
       length (db_restaurant s') = 2%nat /\
       length (db_menuitem s') = (length (db_menuitem s) + 6)%nat /\
       db_order s' = db_order s) /\
  (let s1 := store_after seed_demo empty_store in
   let s2 := store_after seed_demo s1 in
   s2 = s1 /\ length (db_restaurant s2) = 2%nat /\ length (db_menuitem s2) = 6%nat).
Proof.
  split; [|split].
  - intros s Hne. rewrite seed_demo_run.
    destruct (db_restaurant s) as [|d ds]; [congruence|].
    cbn [length]. destruct (Z.ltb_spec 0 (Z.of_nat (S (length ds)))); [reflexivity | lia].
  - intros s Hnil. rewrite seed_demo_run, Hnil. cbn [length Z.of_nat Z.ltb Z.compare].
    exists (seeded s). split; [reflexivity|]. unfold seeded. cbv zeta.
    match goal with
    | |- context [fold_left with_menu_item ?its ?st] =>
        destruct (fold_with_menu_item its st) as (Hr & Hm & Ho)
    end.
    rewrite Hr, Hm, Ho. cbn [with_restaurant db_restaurant db_menuitem db_order].
    rewrite Hnil. repeat split.
  - cbv zeta. repeat split; by_evaluation.
Qed.

Lemma seed_demo_idempotent_witness :
  db_restaurant seeded_store <> [] /\
  run seed_demo seeded_store = (seeded_store, Ok (AlreadySeeded "Data already seeded")) /\
  db_restaurant empty_store = [] /\
  exists s',
    run seed_demo empty_store = (s', Ok (Seeded 2 6)) /\
    length (db_restaurant s') = 2%nat /\
    length (db_menuitem s') = (length (db_menuitem empty_store) + 6)%nat /\
    db_order s' = db_order empty_store.
Proof.
  assert (Hne : db_restaurant seeded_store <> []) by (vm_compute; discriminate).
  split; [exact Hne|].
  split; [exact (proj1 seed_demo_idempotent seeded_store Hne)|].
  split; [reflexivity|].
  exact (proj1 (proj2 seed_demo_idempotent) empty_store eq_refl).
Defined.

(** * Further properties of the handlers *)

Set Warnings "-clear-no-such-hyp".

(** ** Identifiers *)

Lemma hex_value_digit (d : N) : (d < 16)%N -> hex_value (hex_digit d) = Some d.
Proof.
  intros H. destruct d as [|p]; [reflexivity|].
  do 4 (try destruct p as [p|p|]); try reflexivity; exfalso; lia.
Qed.

Lemma fromhex_hexlify (k : nat) : forall (n : N) (acc : string) (a : N),
  fromhex (hexlify k n acc) a =
  fromhex acc (a * 16 ^ N.of_nat k + n mod 16 ^ N.of_nat k)%N.
Proof.
  induction k as [|k IH]; intros n acc a.
  - cbn [hexlify]. change (16 ^ N.of_nat 0)%N with 1%N.
    rewrite N.mod_1_r, N.mul_1_r, N.add_0_r. reflexivity.
  - cbn [hexlify]. rewrite IH. cbn [fromhex].
    rewrite hex_value_digit by (apply N.mod_lt; lia).
    f_equal. rewrite Nat2N.inj_succ, N.pow_succ_r'.
    rewrite (N.Div0.mod_mul_r n 16 (16 ^ N.of_nat k)). lia.
Qed.

Lemma length_hexlify (k : nat) : forall (n : N) (acc : string),
  String.length (hexlify k n acc) = (k + String.length acc)%nat.
Proof.
  induction k as [|k IH]; intros n acc; cbn [hexlify]; [reflexivity|].
  rewrite IH. cbn [String.length]. lia.
Qed.

(** Reading back a printed identifier. *)
Lemma ObjectId_of_str_str (n : ObjectId) :
  (n < ObjectId_bound)%N -> ObjectId_of_str (str_ObjectId n) = Some n.
Proof.
  intros Hn. unfold ObjectId_of_str, str_ObjectId.
  rewrite length_hexlify. cbn [String.length Nat.add Nat.eqb].
  rewrite fromhex_hexlify. cbn [fromhex].
  rewrite N.mul_0_l, N.add_0_l. f_equal. apply N.mod_small. exact Hn.
Qed.

(** X1.  An identifier the store has handed out is accepted by [oid]: the
    printed form of any twelve-byte id has 24 characters, and [oid] reads it
    back as that same id, leaving the store alone. *)
Theorem oid_reads_back_printed_id (n : ObjectId) (s : Store) :
  (n < ObjectId_bound)%N ->
  String.length (str_ObjectId n) = 24%nat /\
  run (oid (str_ObjectId n)) s = (s, Ok n).
Proof.
  intros Hn. split.
  - unfold str_ObjectId. rewrite length_hexlify. reflexivity.
  - unfold oid, run. rewrite (ObjectId_of_str_str n Hn). reflexivity.
Qed.

Lemma oid_reads_back_printed_id_witness :
  (255 < ObjectId_bound)%N /\
  String.length (str_ObjectId 255%N) = 24%nat /\
  run (oid (str_ObjectId 255%N)) seeded_store = (seeded_store, Ok 255%N).
Proof.
  assert (Hn : (255 < ObjectId_bound)%N) by by_evaluation.
  split; [exact Hn|]. exact (oid_reads_back_printed_id 255%N seeded_store Hn).
Defined.

(** ** The loaded menu *)

Lemma menu_dict_snoc (ms : list MenuItemDoc.t) (m : MenuItemDoc.t) :
  menu_dict (ms ++ [m]) = <[menu_key m := m]> (menu_dict ms).
Proof. unfold menu_dict. rewrite fold_left_app. reflexivity. Qed.

Lemma menu_dict_lookup_Some (ms : list MenuItemDoc.t) (k : string) (m : MenuItemDoc.t) :
  menu_dict ms !! k = Some m -> In m ms /\ menu_key m = k.
Proof.
  induction ms as [|m' ms IH] using rev_ind.
  - unfold menu_dict. cbn [fold_left]. rewrite lookup_empty. discriminate.
  - rewrite menu_dict_snoc. destruct (decide (menu_key m' = k)) as [Hk|Hk].
    + rewrite Hk, lookup_insert_eq. intros [= <-]. split; [|exact Hk].
      apply in_or_app. right. left. reflexivity.
    + rewrite lookup_insert_ne by exact Hk. intros H.
      destruct (IH H) as [Hin Hkey]. split; [|exact Hkey].
      apply in_or_app. left. exact Hin.
Qed.

Lemma menu_dict_lookup_In (ms : list MenuItemDoc.t) (m : MenuItemDoc.t) :
  In m ms -> exists m', menu_dict ms !! menu_key m = Some m'.
Proof.
  induction ms as [|m' ms IH] using rev_ind; [intros []|].
  intros Hin. rewrite menu_dict_snoc.
  destruct (decide (menu_key m' = menu_key m)) as [Hk|Hk].
  - rewrite Hk, lookup_insert_eq. eauto.
  - rewrite lookup_insert_ne by exact Hk. apply IH.
    apply in_app_or in Hin as [Hin|[Heq|[]]]; [exact Hin|]. subst m'. congruence.
Qed.

Lemma menu_dict_lookup_None (ms : list MenuItemDoc.t) (k : string) :
  (forall m, In m ms -> menu_key m <> k) -> menu_dict ms !! k = None.
Proof.
  intros Hall. destruct (menu_dict ms !! k) as [m|] eqn:Hm; [|reflexivity].
  apply menu_dict_lookup_Some in Hm as [Hin Hk]. destruct (Hall m Hin Hk).
Qed.

Lemma In_loaded (s : Store) (restaurant_id : string) (m : MenuItemDoc.t) :
  In m (List.filter (fun d => String.eqb (MenuItemDoc.restaurant_id d) restaurant_id)
          (db_menuitem s)) <->
  In m (db_menuitem s) /\ MenuItemDoc.restaurant_id m = restaurant_id.
Proof. rewrite List.filter_In, String.eqb_eq. reflexivity. Qed.

(** X2.  The menu [place_order] loads for a restaurant id is keyed soundly
    and completely: an entry under a key is a stored menu document of that
    restaurant whose printed id is the key; every stored menu document of
    the restaurant has an entry under its printed id; a key no such document
    prints to has none. *)
Theorem loaded_menu_entries (s : Store) (restaurant_id : string) :
  (forall k m, loaded_menu s restaurant_id !! k = Some m ->
     In m (db_menuitem s) /\ MenuItemDoc.restaurant_id m = restaurant_id /\
     str_ObjectId (MenuItemDoc._id m) = k) /\
  (forall m, In m (db_menuitem s) -> MenuItemDoc.restaurant_id m = restaurant_id ->
     exists m', loaded_menu s restaurant_id !! str_ObjectId (MenuItemDoc._id m) = Some m') /\
  (forall k,
     (forall m, In m (db_menuitem s) -> MenuItemDoc.restaurant_id m = restaurant_id ->
                str_ObjectId (MenuItemDoc._id m) <> k) ->
     loaded_menu s restaurant_id !! k = None).
Proof.
  unfold loaded_menu. split; [|split].
  - intros k m Hm. apply menu_dict_lookup_Some in Hm as [Hin Hk].
    apply In_loaded in Hin as [Hin Hr]. auto.
  - intros m Hin Hr. apply (menu_dict_lookup_In _ m). apply In_loaded. auto.
  - intros k Hall. apply menu_dict_lookup_None. intros m Hin.
    apply In_loaded in Hin as [Hin Hr]. exact (Hall m Hin Hr).
Qed.

Lemma loaded_menu_entries_witness :
  loaded_menu seeded_store burger_hub_id !! classic_burger_id
    = Some (dump menuitem 2%N
              (MenuItem.Build burger_hub_id "Classic Burger"
                 (Some "Beef patty, cheese, lettuce") 8.99%float false false
                 (Some "https://images.unsplash.com/photo-1550317138-10000687a72b?w=1200&q=60")
                 (Some "Burgers"))) /\
  MenuItemDoc.restaurant_id
    (dump menuitem 2%N
       (MenuItem.Build burger_hub_id "Classic Burger"
          (Some "Beef patty, cheese, lettuce") 8.99%float false false
          (Some "https://images.unsplash.com/photo-1550317138-10000687a72b?w=1200&q=60")
          (Some "Burgers"))) = burger_hub_id.
Proof.
  assert (Hm : loaded_menu seeded_store burger_hub_id !! classic_burger_id
    = Some (dump menuitem 2%N
              (MenuItem.Build burger_hub_id "Classic Burger"
                 (Some "Beef patty, cheese, lettuce") 8.99%float false false
                 (Some "https://images.unsplash.com/photo-1550317138-10000687a72b?w=1200&q=60")
                 (Some "Burgers")))) by by_evaluation.
  split; [exact Hm|].
  exact (proj1 (proj2 (proj1 (loaded_menu_entries seeded_store burger_hub_id) _ _ Hm))).
Defined.

(** ** Order placement, beyond the claims *)



Lemma store_after_fst {A} (c : M A) (s : Store) : store_after c s = fst (run c s).
Proof. reflexivity. Qed.

Lemma outcome_snd {A} (c : M A) (s : Store) : outcome c s = snd (run c s).
Proof. reflexivity. Qed.

(** X3.  [place_order] writes all or nothing: it never touches the
    restaurant and menu collections; when it raises, the store is exactly as
    before; when it returns, exactly one order document was appended, stored
    under the id it returned. *)
Theorem place_order_frame (s : Store) (p : CreateOrder.t) :
  db_restaurant (store_after (place_order p) s) = db_restaurant s /\
  db_menuitem (store_after (place_order p) s) = db_menuitem s /\
  (forall e, outcome (place_order p) s = Raise e ->
             store_after (place_order p) s = s) /\
  (forall resp, outcome (place_order p) s = Ok resp ->
     exists o,
       db_order (store_after (place_order p) s) = db_order s ++ [o] /\
       str_ObjectId (OrderDoc._id o) = placed_id resp /\
       next_id (store_after (place_order p) s) = N.succ (next_id s)).
Proof.
  rewrite store_after_fst, outcome_snd, place_order_run. cbv zeta.
  destruct (ObjectId_of_str (CreateOrder.restaurant_id p)) as [i|];
    [|cbn [fst snd]; repeat split; discriminate].
  destruct (List.find _ (db_restaurant s)) as [r|];
    [|cbn [fst snd]; repeat split; discriminate].
  destruct (new_lines _ _) as [its|e];
    [|cbn [fst snd]; repeat split; discriminate].
  cbn [fst snd with_order db_restaurant db_menuitem db_order next_id].
  repeat split; [discriminate|].
  intros resp [= <-]. eexists. repeat split.
Qed.

Lemma place_order_frame_witness :
  outcome (place_order (submission unknown_restaurant_id (CreateOrder.items scenarioA)))
          seeded_store
    = Raise (AttributeError "'NoneType' object has no attribute 'get'") /\
  store_after (place_order (submission unknown_restaurant_id (CreateOrder.items scenarioA)))
              seeded_store = seeded_store /\
  outcome (place_order scenarioA) seeded_store
    = Ok {| placed_id := "000000000000000000000008"; placed_total := 17.98%float;
            placed_status := "placed" |} /\
  exists o,
    db_order (store_after (place_order scenarioA) seeded_store)
      = db_order seeded_store ++ [o] /\
    str_ObjectId (OrderDoc._id o) = "000000000000000000000008" /\
    next_id (store_after (place_order scenarioA) seeded_store)
      = N.succ (next_id seeded_store).
Proof.
  assert (Hraise :
    outcome (place_order (submission unknown_restaurant_id (CreateOrder.items scenarioA)))
            seeded_store
      = Raise (AttributeError "'NoneType' object has no attribute 'get'"))
    by by_evaluation.
  assert (Hok : outcome (place_order scenarioA) seeded_store
      = Ok {| placed_id := "000000000000000000000008"; placed_total := 17.98%float;
              placed_status := "placed" |}) by by_evaluation.
  split; [exact Hraise|].
  split; [exact (proj1 (proj2 (proj2 (place_order_frame seeded_store _))) _ Hraise)|].
  split; [exact Hok|].
  exact (proj2 (proj2 (proj2 (place_order_frame seeded_store scenarioA))) _ Hok).
Defined.



(** X5.  A stored order is a snapshot: restaurant id and the three customer
    fields are the submitted ones, the restaurant name is the stored
    restaurant's name (or "Restaurant" when that document has no name), the
    status is "placed" in the record and in the response, and the response
    total is the stored total. *)
Theorem place_order_snapshot (s s' : Store) (p : CreateOrder.t) (resp : OrderPlaced) :
  run (place_order p) s = (s', Ok resp) ->
  exists r o,
    resolve_restaurant s (CreateOrder.restaurant_id p) = Some r /\
    db_order s' = db_order s ++ [o] /\
    Order.restaurant_name (OrderDoc.fields o) =
      match RestaurantDoc.name r with
      | Some n => n
      | None => "Restaurant"
      end /\
    Order.restaurant_id (OrderDoc.fields o) = CreateOrder.restaurant_id p /\
    Order.customer_name (OrderDoc.fields o) = CreateOrder.customer_name p /\
    Order.customer_phone (OrderDoc.fields o) = CreateOrder.customer_phone p /\
    Order.customer_address (OrderDoc.fields o) = CreateOrder.customer_address p /\
    Order.status (OrderDoc.fields o) = "placed" /\
    placed_status resp = "placed" /\
    placed_total resp = Order.total (OrderDoc.fields o).
Proof.
  intros Hrun.
  destruct (place_order_inv _ _ _ _ Hrun) as (r & Hres & _ & -> & ->).
  exists r. eexists. split; [exact Hres|]. split; [reflexivity|].
  cbn [OrderDoc.fields expected_order Order.restaurant_name]. repeat split.
Qed.

Lemma place_order_snapshot_witness :
  run (place_order scenarioB) nameless_store =
    (store_after (place_order scenarioB) nameless_store,
     Ok {| placed_id := "000000000000000000000001"; placed_total := 5%float;
           placed_status := "placed" |}) /\
  map (fun o => Order.restaurant_name (OrderDoc.fields o))
      (db_order (store_after (place_order scenarioB) nameless_store)) = ["Restaurant"] /\
  exists r o,
    resolve_restaurant nameless_store (CreateOrder.restaurant_id scenarioB) = Some r /\
    db_order (store_after (place_order scenarioB) nameless_store)
      = db_order nameless_store ++ [o] /\
    Order.restaurant_name (OrderDoc.fields o) =
      match RestaurantDoc.name r with
      | Some n => n
      | None => "Restaurant"
      end /\
    Order.restaurant_id (OrderDoc.fields o) = CreateOrder.restaurant_id scenarioB /\
    Order.customer_name (OrderDoc.fields o) = CreateOrder.customer_name scenarioB /\
    Order.customer_phone (OrderDoc.fields o) = CreateOrder.customer_phone scenarioB /\
    Order.customer_address (OrderDoc.fields o) = CreateOrder.customer_address scenarioB /\
    Order.status (OrderDoc.fields o) = "placed" /\
    placed_status {| placed_id := "000000000000000000000001"; placed_total := 5%float;
                     placed_status := "placed" |} = "placed" /\
    placed_total {| placed_id := "000000000000000000000001"; placed_total := 5%float;
                    placed_status := "placed" |} = Order.total (OrderDoc.fields o).
Proof.
  assert (Hrun : run (place_order scenarioB) nameless_store =
    (store_after (place_order scenarioB) nameless_store,
     Ok {| placed_id := "000000000000000000000001"; placed_total := 5%float;
           placed_status := "placed" |})) by by_evaluation.
  split; [exact Hrun|]. split; [by_evaluation|].
  exact (place_order_snapshot _ _ _ _ Hrun).
Defined.

Lemma reconciled_unmatched menu it :
  menu !! OrderItem.item_id it = None -> reconciled menu it = it.
Proof.
  intros H. unfold reconciled, authoritative_name, authoritative_price.
  rewrite H. now destruct it.
Qed.

(** X6.  Menus do not leak across restaurants: a line whose item id is not
    the printed id of any stored menu document of the ordered restaurant
    (say, an item of another restaurant) is stored exactly as submitted,
    client name and price included. *)
Theorem place_order_foreign_item_verbatim
    (s s' : Store) (p : CreateOrder.t) (resp : OrderPlaced) (k : nat) (it : OrderItem.t) :
  run (place_order p) s = (s', Ok resp) ->
  CreateOrder.items p !! k = Some it ->
  (forall d, In d (db_menuitem s) ->
             MenuItemDoc.restaurant_id d = CreateOrder.restaurant_id p ->
             str_ObjectId (MenuItemDoc._id d) <> OrderItem.item_id it) ->
  exists o, db_order s' = db_order s ++ [o] /\
            Order.items (OrderDoc.fields o) !! k = Some it.
Proof.
  intros Hrun Hk Hforeign.
  destruct (place_order_inv _ _ _ _ Hrun) as (r & _ & _ & -> & ->).
  eexists. split; [reflexivity|].
  cbn [OrderDoc.fields expected_order Order.items].
  rewrite lookup_map, Hk. cbn [option_map]. f_equal.
  apply reconciled_unmatched. unfold loaded_menu.
  apply menu_dict_lookup_None. intros m Hin.
  apply In_loaded in Hin as [Hin Hr]. exact (Hforeign m Hin Hr).
Qed.

Lemma place_order_foreign_item_verbatim_witness :
  run (place_order cross_order) seeded_store =
    (store_after (place_order cross_order) seeded_store,
     Ok {| placed_id := "000000000000000000000008"; placed_total := 0.01%float;
           placed_status := "placed" |}) /\
  CreateOrder.items cross_order !! 0%nat = Some foreign_item /\
  exists o, db_order (store_after (place_order cross_order) seeded_store)
              = db_order seeded_store ++ [o] /\
            Order.items (OrderDoc.fields o) !! 0%nat = Some foreign_item.
Proof.
  assert (Hrun : run (place_order cross_order) seeded_store =
    (store_after (place_order cross_order) seeded_store,
     Ok {| placed_id := "000000000000000000000008"; placed_total := 0.01%float;
           placed_status := "placed" |})) by by_evaluation.
  split; [exact Hrun|]. split; [reflexivity|].
  apply (place_order_foreign_item_verbatim _ _ _ _ 0%nat foreign_item Hrun);
    [reflexivity|].
  intros d Hin. vm_compute in Hin.
  repeat (destruct Hin as [<-|Hin]); try contradiction;
    intros Hr Hid; first [vm_compute in Hr; discriminate | vm_compute in Hid; discriminate].
Defined.






(** X8.  An order just placed shows up in the listing under the id that
    [place_order] returned and with the total it returned, provided the
    store held fewer than [limit] orders before (50 when the request has no
    limit). *)
Theorem placed_order_is_listed
    (s s' : Store) (p : CreateOrder.t) (resp : OrderPlaced) (limit : option Z) :
  run (place_order p) s = (s', Ok resp) ->
  Z.of_nat (length (db_order s)) < default 50 limit ->
  exists o,
    In (placed_id resp, o) (returned (outcome (list_orders limit) s')) /\
    Order.total (OrderDoc.fields o) = placed_total resp /\
    Order.restaurant_id (OrderDoc.fields o) = CreateOrder.restaurant_id p.
Proof.
  intros Hrun Hlt.
  destruct (place_order_inv _ _ _ _ Hrun) as (r & _ & _ & -> & ->).
  eexists. split.
  - rewrite outcome_snd, list_orders_run. cbn [snd returned with_order db_order].
    rewrite firstn_snoc by lia. rewrite map_app. apply in_or_app. right. left.
    reflexivity.
  - split; reflexivity.
Qed.

Lemma placed_order_is_listed_witness :
  run (place_order scenarioA) seeded_store =
    (store_after (place_order scenarioA) seeded_store,
     Ok {| placed_id := "000000000000000000000008"; placed_total := 17.98%float;
           placed_status := "placed" |}) /\
  Z.of_nat (length (db_order seeded_store)) < default 50 None /\
  exists o,
    In ("000000000000000000000008", o)
       (returned (outcome (list_orders None)
                    (store_after (place_order scenarioA) seeded_store))) /\
    Order.total (OrderDoc.fields o) = 17.98%float /\
    Order.restaurant_id (OrderDoc.fields o) = burger_hub_id.
Proof.
  assert (Hrun : run (place_order scenarioA) seeded_store =
    (store_after (place_order scenarioA) seeded_store,
     Ok {| placed_id := "000000000000000000000008"; placed_total := 17.98%float;
           placed_status := "placed" |})) by by_evaluation.
  assert (Hlt : Z.of_nat (length (db_order seeded_store)) < default 50 None)
    by by_evaluation.
  split; [exact Hrun|]. split; [exact Hlt|].
  exact (placed_order_is_listed _ _ _ _ None Hrun Hlt).
Defined.

(** X9.  Orders are never merged or deduplicated, and placing one does not
    change what the next is charged: submitting the same order again
    succeeds, returns the same total and appends a second document with the
    same fields under the next id. *)
Theorem place_order_twice (s s1 : Store) (p : CreateOrder.t) (resp1 : OrderPlaced) :
  run (place_order p) s = (s1, Ok resp1) ->
  exists s2 resp2 o1 o2,
    run (place_order p) s1 = (s2, Ok resp2) /\
    db_order s2 = db_order s ++ [o1; o2] /\
    OrderDoc.fields o2 = OrderDoc.fields o1 /\
    OrderDoc._id o2 = N.succ (OrderDoc._id o1) /\
    placed_total resp2 = placed_total resp1.
Proof.
  intros Hrun.
  destruct (place_order_inv _ _ _ _ Hrun) as (r & Hres & HF & -> & ->).
  do 4 eexists. split.
  - apply (place_order_ok _ p r); [exact Hres | exact HF].
  - cbn [with_order db_order next_id]. rewrite <- app_assoc. cbn [app].
    repeat split.
Qed.

Lemma place_order_twice_witness :
  run (place_order scenarioA) seeded_store =
    (store_after (place_order scenarioA) seeded_store,
     Ok {| placed_id := "000000000000000000000008"; placed_total := 17.98%float;
           placed_status := "placed" |}) /\
  exists s2 resp2 o1 o2,
    run (place_order scenarioA) (store_after (place_order scenarioA) seeded_store)
      = (s2, Ok resp2) /\
    db_order s2 = db_order seeded_store ++ [o1; o2] /\
    OrderDoc.fields o2 = OrderDoc.fields o1 /\
    OrderDoc._id o2 = N.succ (OrderDoc._id o1) /\
    placed_total resp2 = 17.98%float.
Proof.
  assert (Hrun : run (place_order scenarioA) seeded_store =
    (store_after (place_order scenarioA) seeded_store,
     Ok {| placed_id := "000000000000000000000008"; placed_total := 17.98%float;
           placed_status := "placed" |})) by by_evaluation.
  split; [exact Hrun|].
  exact (place_order_twice _ _ _ _ Hrun).
Defined.

(** ** Catalog, beyond the claims *)



Lemma firstn_In {A} (n : nat) (l : list A) (x : A) : In x (firstn n l) -> In x l.
Proof.
  revert l. induction n as [|n IH]; intros [|a l]; cbn; try tauto.
  intros [->|H]; [now left | right; now apply IH].
Qed.

(** X11.  [list_menu] takes its argument as a plain string: it never raises
    (a malformed id is not an error) and never writes; it returns at most
    200 records, each a stored menu document whose [restaurant_id] is
    exactly the argument, exposed under its printed id; a restaurant with at
    most 200 items gets all of them, in store order. *)
Theorem list_menu_sound (s : Store) (restaurant_id : string) :
  exists l,
    run (list_menu restaurant_id) s = (s, Ok l) /\
    (length l <= 200)%nat /\
    (forall i d, In (i, d) l ->
       In d (db_menuitem s) /\ MenuItemDoc.restaurant_id d = restaurant_id /\
       i = str_ObjectId (MenuItemDoc._id d)) /\
    ((length (List.filter (for_restaurant restaurant_id) (db_menuitem s)) <= 200)%nat ->
     map snd l = List.filter (for_restaurant restaurant_id) (db_menuitem s)).
Proof.
  rewrite list_menu_run. eexists. split; [reflexivity|].
  split; [rewrite length_map, length_firstn; lia|]. split.
  - intros i d Hin. apply in_map_iff in Hin as (d' & Heq & Hin).
    unfold with_id in Heq. injection Heq as <- ->.
    apply firstn_In, List.filter_In in Hin as [Hin Hr].
    unfold for_restaurant in Hr. apply String.eqb_eq in Hr. auto.
  - intros Hle. rewrite firstn_all2 by exact Hle.
    rewrite map_map. cbn [with_id snd]. apply map_id.
Qed.

Lemma list_menu_sound_witness :
  (length (List.filter (for_restaurant "z") (db_menuitem seeded_store)) <= 200)%nat /\
  run (list_menu "z") seeded_store = (seeded_store, Ok []) /\
  map (fun e => (fst e, MenuItemDoc.name (snd e)))
      (returned (outcome (list_menu burger_hub_id) seeded_store)) =
    [("000000000000000000000002", Some "Classic Burger");
     ("000000000000000000000003", Some "Veggie Burger");
     ("000000000000000000000004", Some "Fries")].
Proof.
  assert (Hle : (length (List.filter (for_restaurant "z") (db_menuitem seeded_store))
                 <= 200)%nat) by (vm_compute; lia).
  split; [exact Hle|]. split; [|by_evaluation].
  destruct (list_menu_sound seeded_store "z") as (l & Hrun & _ & _ & Hall).
  rewrite Hrun. specialize (Hall Hle). vm_compute in Hall.
  destruct l; [reflexivity | discriminate].
Defined.

Lemma find_In_true {A} (f : A -> bool) (l : list A) (x : A) :
  In x l -> f x = true -> exists y, List.find f l = Some y.
Proof.
  intros Hin Hf. destruct (List.find f l) as [y|] eqn:Hfind; [eauto|].
  rewrite (find_none f l Hfind x Hin) in Hf. discriminate.
Qed.

(** X12.  The id [create_restaurant] returns is usable at once:
    [create_restaurant] always succeeds and adds one restaurant, and
    [create_menu_item] for an item carrying the returned id then succeeds
    too (neither 400 nor 404), storing the item under the next id. *)
Theorem create_restaurant_then_menu_item
    (s : Store) (r : Restaurant.t) (m : MenuItem.t) :
  (next_id s < ObjectId_bound)%N ->
  MenuItem.restaurant_id m = str_ObjectId (next_id s) ->
  run (create_restaurant r) s = (with_restaurant s r, Ok (str_ObjectId (next_id s))) /\
  run (create_menu_item m) (with_restaurant s r) =
    (with_menu_item (with_restaurant s r) m, Ok (str_ObjectId (N.succ (next_id s)))).
Proof.
  intros Hn Hrid. split; [reflexivity|].
  rewrite create_menu_item_run, Hrid, (ObjectId_of_str_str _ Hn).
  destruct (find_In_true (fun d => N.eqb (RestaurantDoc._id d) (next_id s))
              (db_restaurant (with_restaurant s r)) (dump restaurant (next_id s) r))
    as [y Hy].
  - cbn [with_restaurant db_restaurant]. apply in_or_app. right. left. reflexivity.
  - cbn [dump restaurant RestaurantDoc._id]. apply N.eqb_refl.
  - rewrite Hy. reflexivity.
Qed.

Lemma create_restaurant_then_menu_item_witness :
  (next_id seeded_store < ObjectId_bound)%N /\
  MenuItem.restaurant_id
    (MenuItem.Build "000000000000000000000008" "Dal" None 6.5%float true false None None)
    = str_ObjectId (next_id seeded_store) /\
  run (create_menu_item
         (MenuItem.Build "000000000000000000000008" "Dal" None 6.5%float true false
            None None))
      (with_restaurant seeded_store demo_rest2) =
    (with_menu_item (with_restaurant seeded_store demo_rest2)
       (MenuItem.Build "000000000000000000000008" "Dal" None 6.5%float true false None None),
     Ok "000000000000000000000009").
Proof.
  assert (Hn : (next_id seeded_store < ObjectId_bound)%N) by by_evaluation.
  assert (Hrid : MenuItem.restaurant_id
    (MenuItem.Build "000000000000000000000008" "Dal" None 6.5%float true false None None)
    = str_ObjectId (next_id seeded_store)) by by_evaluation.
  split; [exact Hn|]. split; [exact Hrid|].
  exact (proj2 (create_restaurant_then_menu_item seeded_store demo_rest2 _ Hn Hrid)).
Defined.

Lemma list_restaurants_run (regex_i : string -> string -> bool) (s : Store)
    (q cuisine : option string) :
  run (list_restaurants regex_i q cuisine) s =
  (s, Ok (map (with_id RestaurantDoc._id)
            (firstn 50
               (List.filter
                  (fun d => forallb (satisfies regex_i d) (restaurant_conditions q cuisine))
                  (db_restaurant s))))).
Proof. reflexivity. Qed.

(** X13.  A query parameter that is absent or empty does not filter: with
    neither [q] nor [cuisine] given as a non-empty string,
    [list_restaurants] returns the first 50 restaurants in store order,
    each under its printed id, whatever the regex engine does, and leaves
    the store alone. *)
Theorem list_restaurants_unfiltered (regex_i : string -> string -> bool) (s : Store)
    (q cuisine : option string) :
  truthy q = false -> truthy cuisine = false ->
  run (list_restaurants regex_i q cuisine) s =
  (s, Ok (map (with_id RestaurantDoc._id) (firstn 50 (db_restaurant s)))).
Proof.
  intros Hq Hc. rewrite list_restaurants_run. unfold restaurant_conditions.
  rewrite Hq, Hc. cbn [app forallb]. rewrite filter_all. reflexivity.
Qed.

Lemma list_restaurants_unfiltered_witness :
  truthy (Some "") = false /\ truthy None = false /\
  map (fun e => (fst e, RestaurantDoc.name (snd e)))
      (returned (outcome (list_restaurants contains (Some "") None) seeded_store)) =
    [("000000000000000000000000", Some "Burger Hub");
     ("000000000000000000000001", Some "Curry Palace")].
Proof.
  split; [reflexivity|]. split; [reflexivity|].
  rewrite outcome_snd,
    (list_restaurants_unfiltered contains seeded_store (Some "") None eq_refl eq_refl).
  by_evaluation.
Defined.



(** X15.  A restaurant just created is listed: after [create_restaurant] on
    a store with fewer than 50 restaurants, the unfiltered listing contains
    it under the id that was returned, with the submitted name. *)
Theorem created_restaurant_is_listed (regex_i : string -> string -> bool)
    (s : Store) (r : Restaurant.t) :
  (length (db_restaurant s) < 50)%nat ->
  exists s1 new_id d,
    run (create_restaurant r) s = (s1, Ok new_id) /\
    In (new_id, d) (returned (outcome (list_restaurants regex_i None None) s1)) /\
    RestaurantDoc.name d = Some (Restaurant.name r) /\
    RestaurantDoc.cuisine d = Restaurant.cuisine r /\
    RestaurantDoc.rating d = Restaurant.rating r.
Proof.
  intros Hlt. exists (with_restaurant s r), (str_ObjectId (next_id s)),
    (dump restaurant (next_id s) r).
  split; [reflexivity|]. split; [|repeat split].
  rewrite outcome_snd, list_restaurants_run. cbn [snd returned restaurant_conditions
    truthy app forallb with_restaurant db_restaurant].
  rewrite filter_all, (firstn_snoc _ _ _ Hlt), map_app.
  apply in_or_app. right. left. reflexivity.
Qed.

Lemma created_restaurant_is_listed_witness :
  (length (db_restaurant seeded_store) < 50)%nat /\
  exists s1 new_id d,
    run (create_restaurant demo_rest2) seeded_store = (s1, Ok new_id) /\
    In (new_id, d) (returned (outcome (list_restaurants contains None None) s1)) /\
    RestaurantDoc.name d = Some (Restaurant.name demo_rest2) /\
    RestaurantDoc.cuisine d = Restaurant.cuisine demo_rest2 /\
    RestaurantDoc.rating d = Restaurant.rating demo_rest2.
Proof.
  assert (Hlt : (length (db_restaurant seeded_store) < 50)%nat) by (vm_compute; lia).
  split; [exact Hlt|].
  exact (created_restaurant_is_listed contains seeded_store demo_rest2 Hlt).
Defined.

(** ** Seeding, beyond the claims *)

Lemma fold_with_menu_item_In (items : list MenuItem.t) :
  forall (st : Store) (d : MenuItemDoc.t),
    In d (db_menuitem (fold_left with_menu_item items st)) ->
    In d (db_menuitem st) \/
    exists m, In m items /\
              MenuItemDoc.restaurant_id d = MenuItem.restaurant_id m /\
              MenuItemDoc.name d = Some (MenuItem.name m) /\
              MenuItemDoc.price d = Some (MenuItem.price m).
Proof.
  induction items as [|m items IH]; intros st d Hin; cbn [fold_left] in Hin.
  - now left.
  - destruct (IH _ _ Hin) as [Hold|(m' & Hm' & Hd)].
    + cbn [with_menu_item db_menuitem] in Hold.
      apply in_app_or in Hold as [Hold|[<-|[]]]; [now left|].
      right. exists m. split; [now left|]. repeat split.
    + right. exists m'. split; [now right | exact Hd].
Qed.

(** X16.  The demo data is consistent: when [seed_demo] runs on a store
    without restaurants, every menu document it adds has a name and a price
    and carries a restaurant id that resolves, in the seeded store, to one
    of the two restaurants it created. *)
Theorem seed_demo_items_resolve (s : Store) (d : MenuItemDoc.t) :
  db_restaurant s = [] ->
  (N.succ (next_id s) < ObjectId_bound)%N ->
  In d (db_menuitem (store_after seed_demo s)) ->
  In d (db_menuitem s) \/
  (exists r,
     resolve_restaurant (store_after seed_demo s) (MenuItemDoc.restaurant_id d) = Some r /\
     (RestaurantDoc.name r = Some "Burger Hub" \/
      RestaurantDoc.name r = Some "Curry Palace")) /\
  MenuItemDoc.name d <> None /\ MenuItemDoc.price d <> None.
Proof.
  intros Hnil Hn. rewrite store_after_fst, seed_demo_run, Hnil.
  change (0 <? Z.of_nat (length (@nil RestaurantDoc.t))) with false.
  cbv iota. cbn [fst]. intros Hin.
  assert (Hrests : db_restaurant (seeded s) =
            [dump restaurant (next_id s) demo_rest1;
             dump restaurant (N.succ (next_id s)) demo_rest2]).
  { unfold seeded. cbv zeta. rewrite (proj1 (fold_with_menu_item _ _)).
    cbn [with_restaurant db_restaurant next_id]. rewrite Hnil. reflexivity. }
  unfold seeded in Hin. cbv zeta in Hin.
  apply fold_with_menu_item_In in Hin as [Hold|(m & Hm & Hrid & Hname & Hprice)];
    [now left|].
  right. split; [|rewrite Hname, Hprice; split; discriminate].
  unfold resolve_restaurant. rewrite Hrests, Hrid.
  assert (H1 : ObjectId_of_str (str_ObjectId (next_id s)) = Some (next_id s))
    by (apply ObjectId_of_str_str; lia).
  assert (H2 : ObjectId_of_str (str_ObjectId (N.succ (next_id s)))
               = Some (N.succ (next_id s)))
    by (apply ObjectId_of_str_str; exact Hn).
  cbn [with_restaurant next_id] in Hm.
  unfold demo_items in Hm. cbn [In] in Hm.
  destruct Hm as [<-|[<-|[<-|[<-|[<-|[<-|[]]]]]]]; cbn [MenuItem.restaurant_id];
    rewrite ?H1, ?H2; cbn [List.find dump restaurant RestaurantDoc._id];
    rewrite ?N.eqb_refl;
    try (replace (next_id s =? N.succ (next_id s))%N with false
           by (symmetry; apply N.eqb_neq; lia));
    eexists; (split; [reflexivity|]); cbn; auto.
Qed.

Lemma seed_demo_items_resolve_witness :
  db_restaurant empty_store = [] /\
  (N.succ (next_id empty_store) < ObjectId_bound)%N /\
  In (dump menuitem 5%N
        (MenuItem.Build "000000000000000000000001" "Butter Chicken"
           (Some "Creamy tomato gravy") 12.99%float false false
           (Some "https://images.unsplash.com/photo-1628294895950-980525a64300?w=1200&q=60")
           (Some "Main")))
     (db_menuitem (store_after seed_demo empty_store)) /\
  exists r,
    resolve_restaurant (store_after seed_demo empty_store) "000000000000000000000001"
      = Some r /\
    (RestaurantDoc.name r = Some "Burger Hub" \/
     RestaurantDoc.name r = Some "Curry Palace").
Proof.
  assert (Hn : (N.succ (next_id empty_store) < ObjectId_bound)%N) by by_evaluation.
  assert (Hin : In (dump menuitem 5%N
        (MenuItem.Build "000000000000000000000001" "Butter Chicken"
           (Some "Creamy tomato gravy") 12.99%float false false
           (Some "https://images.unsplash.com/photo-1628294895950-980525a64300?w=1200&q=60")
           (Some "Main")))
     (db_menuitem (store_after seed_demo empty_store))).
  { vm_compute. do 3 right. left. reflexivity. }
  split; [reflexivity|]. split; [exact Hn|]. split; [exact Hin|].
  destruct (seed_demo_items_resolve empty_store _ eq_refl Hn Hin) as [[]|[Hr _]].
  exact Hr.
Defined.

(** ** An invariant of the menu collection *)

Lemma place_order_menuitem (s : Store) (p : CreateOrder.t) :
  db_menuitem (store_after (place_order p) s) = db_menuitem s.
Proof.
  rewrite store_after_fst, place_order_run. cbv zeta.
  destruct (ObjectId_of_str (CreateOrder.restaurant_id p)) as [i|]; [|reflexivity].
  destruct (List.find _ (db_restaurant s)) as [r|]; [|reflexivity].
  destruct (new_lines _ _) as [its|e]; reflexivity.
Qed.

Lemma with_menu_item_complete (s : Store) (m : MenuItem.t) :
  menu_complete s -> menu_complete (with_menu_item s m).
Proof.
  intros Hs d Hin. cbn [with_menu_item db_menuitem] in Hin.
  apply in_app_or in Hin as [Hin|[<-|[]]]; [exact (Hs d Hin)|].
  cbn. split; discriminate.
Qed.

(** X17.  No handler ever stores a menu document without a name or a
    price: if every menu document has both, that is still so after
    [create_restaurant], [create_menu_item], [place_order] and [seed_demo],
    whether they return or raise. *)
Theorem handlers_keep_menu_complete (s : Store) :
  menu_complete s ->
  (forall r, menu_complete (store_after (create_restaurant r) s)) /\
  (forall m, menu_complete (store_after (create_menu_item m) s)) /\
  (forall p, menu_complete (store_after (place_order p) s)) /\
  menu_complete (store_after seed_demo s).
Proof.
  intros Hs. split; [|split; [|split]].
  - intros r. exact Hs.
  - intros m. rewrite store_after_fst, create_menu_item_run.
    destruct (ObjectId_of_str (MenuItem.restaurant_id m)) as [i|]; [|exact Hs].
    destruct (List.find _ (db_restaurant s)) as [r|]; [|exact Hs].
    apply with_menu_item_complete, Hs.
  - intros p d. rewrite place_order_menuitem. apply Hs.
  - rewrite store_after_fst, seed_demo_run.
    destruct (0 <? Z.of_nat (length (db_restaurant s))); [exact Hs|].
    cbn [fst]. intros d Hin. unfold seeded in Hin. cbv zeta in Hin.
    apply fold_with_menu_item_In in Hin as [Hold|(m & _ & _ & Hname & Hprice)].
    + exact (Hs d Hold).
    + rewrite Hname, Hprice. split; discriminate.
Qed.

Lemma handlers_keep_menu_complete_witness :
  menu_complete empty_store /\
  menu_complete (store_after seed_demo empty_store) /\
  menu_complete (store_after (create_menu_item extra_fries)
                   (store_after seed_demo empty_store)).
Proof.
  assert (H0 : menu_complete empty_store) by (intros d []).
  assert (H1 : menu_complete (store_after seed_demo empty_store))
    by exact (proj2 (proj2 (proj2 (handlers_keep_menu_complete empty_store H0)))).
  split; [exact H0|]. split; [exact H1|].
  exact (proj1 (proj2 (handlers_keep_menu_complete _ H1)) extra_fries).
Defined.

Lemma seeded_store_complete : menu_complete seeded_store.
Proof.
  intros d Hin. vm_compute in Hin.
  repeat (destruct Hin as [<-|Hin]); try contradiction; split; discriminate.
Qed.

(** X18.  On a store where every menu document has a name and a price, a
    returned order never keeps client data for a line that is on the menu:
    each line whose item id is in the loaded menu is stored with exactly
    the stored document's name and price. *)
Theorem place_order_matched_lines_use_menu
    (s s' : Store) (p : CreateOrder.t) (resp : OrderPlaced)
    (k : nat) (it : OrderItem.t) (m : MenuItemDoc.t) :
  menu_complete s ->
  run (place_order p) s = (s', Ok resp) ->
  CreateOrder.items p !! k = Some it ->
  loaded_menu s (CreateOrder.restaurant_id p) !! OrderItem.item_id it = Some m ->
  exists o n q,
    db_order s' = db_order s ++ [o] /\
    MenuItemDoc.name m = Some n /\ MenuItemDoc.price m = Some q /\
    Order.items (OrderDoc.fields o) !! k =
      Some (OrderItem.Build (OrderItem.item_id it) n q (OrderItem.quantity it)).
Proof.
  intros Hs Hrun Hk Hm.
  destruct (place_order_inv _ _ _ _ Hrun) as (r & _ & _ & -> & ->).
  pose proof Hm as Hm'. unfold loaded_menu in Hm'.
  apply menu_dict_lookup_Some in Hm' as [Hin _].
  apply In_loaded in Hin as [Hin _]. destruct (Hs m Hin) as [Hname Hprice].
  destruct (MenuItemDoc.name m) as [n|] eqn:En; [|congruence].
  destruct (MenuItemDoc.price m) as [q|] eqn:Eq; [|congruence].
  eexists. exists n, q. split; [reflexivity|]. do 2 (split; [reflexivity|]).
  cbn [OrderDoc.fields expected_order Order.items].
  rewrite lookup_map, Hk. cbn [option_map]. f_equal.
  unfold reconciled, authoritative_name, authoritative_price.
  rewrite Hm, En, Eq. reflexivity.
Qed.

Lemma place_order_matched_lines_use_menu_witness :
  menu_complete seeded_store /\
  run (place_order scenarioA) seeded_store =
    (store_after (place_order scenarioA) seeded_store,
     Ok {| placed_id := "000000000000000000000008"; placed_total := 17.98%float;
           placed_status := "placed" |}) /\
  exists o n q,
    db_order (store_after (place_order scenarioA) seeded_store)
      = db_order seeded_store ++ [o] /\
    n = "Classic Burger" /\ q = 8.99%float /\
    Order.items (OrderDoc.fields o) !! 0%nat =
      Some (OrderItem.Build classic_burger_id n q 2).
Proof.
  assert (Hrun : run (place_order scenarioA) seeded_store =
    (store_after (place_order scenarioA) seeded_store,
     Ok {| placed_id := "000000000000000000000008"; placed_total := 17.98%float;
           placed_status := "placed" |})) by by_evaluation.
  split; [exact seeded_store_complete|]. split; [exact Hrun|].
  destruct (place_order_matched_lines_use_menu seeded_store _ scenarioA _ 0%nat
              (OrderItem.Build classic_burger_id "Classic Burger" 0.01%float 2)
              (dump menuitem 2%N
                 (MenuItem.Build burger_hub_id "Classic Burger"
                    (Some "Beef patty, cheese, lettuce") 8.99%float false false
                    (Some "https://images.unsplash.com/photo-1550317138-10000687a72b?w=1200&q=60")
                    (Some "Burgers")))
              seeded_store_complete Hrun eq_refl)
    as (o & n & q & Ho & Hn & Hq & Hline); [by_evaluation|].
  exists o, n, q. split; [exact Ho|].
  cbn in Hn, Hq. injection Hn as <-. injection Hq as <-.
  repeat split. exact Hline.
Defined.
